(** * Battery Notes: the integration's entry point

    A shallow embedding of [custom_components/battery_notes/__init__.py]:
    the config-entry lifecycle ([async_setup], [async_setup_entry],
    [async_remove_entry], [async_migrate_entry], [async_update_options],
    [async_unload_entry]) and the "battery replaced" service.

    Python values are an inductive type, dicts are [gmap]s keyed by Python
    strings, and the [hass] object is a record threaded through a small
    state-and-exception monad.  Calls into the host platform and into the
    integration's own subsystem objects (store, coordinator, library
    updater, discovery manager), whose code lives in other modules, are
    recorded in a trace of calls.  Calls to [_LOGGER] touch neither [hass]
    nor a config entry and are left out. *)

From Stdlib Require Import ZArith NArith Ascii String.
From stdpp Require Import base option list gmap.

Local Open Scope N_scope.

(** ** Python strings *)

(** A [str] is a sequence of Unicode code points. *)
Abbreviation str := (list N).

(** An ASCII literal of the source as a [str]. *)
Fixpoint lit (s : string) : list N :=
  match s with
  | EmptyString => []
  | String a s' => N_of_ascii a :: lit s'
  end.

(** ** The [re] module, as far as the migration pattern uses it *)

Module Re.

(** Classification of the code points above ASCII comes from the Unicode
    database of the interpreter; it is a parameter of the model.  On ASCII
    the classes are the ones [re] uses for [str] patterns. *)
Record unicode_db := {
  uni_decimal : N → bool;   (* category Nd *)
  uni_space : N → bool;     (* str.isspace *)
  uni_alnum : N → bool      (* str.isalnum *)
}.

(** A database that knows no character above ASCII. *)
Definition ascii_db : unicode_db :=
  {| uni_decimal := λ _, false; uni_space := λ _, false; uni_alnum := λ _, false |}.

Section Classes.
Variable db : unicode_db.

(** [\d] *)
Definition is_digit (c : N) : bool :=
  if c <? 128 then (48 <=? c) && (c <=? 57) else uni_decimal db c.

(** [\s]: on ASCII, tab to carriage return, the separators 0x1c-0x1f, space. *)
Definition is_space (c : N) : bool :=
  if c <? 128
  then ((9 <=? c) && (c <=? 13)) || ((28 <=? c) && (c <=? 31)) || (c =? 32)
  else uni_space db c.

(** [\w]: alphanumeric or underscore. *)
Definition is_word (c : N) : bool :=
  if c <? 128
  then ((48 <=? c) && (c <=? 57)) || ((65 <=? c) && (c <=? 90))
       || ((97 <=? c) && (c <=? 122)) || (c =? 95)
  else uni_alnum db c.

(** [[\s\S]] *)
Definition is_any (c : N) : bool := is_space c || negb (is_space c).

End Classes.

(** The pattern syntax the source uses.  Repetition is the greedy [+] and in
    this pattern it is only ever applied to a character class. *)
Inductive regex :=
  | Bol                                  (* ^ *)
  | Eol                                  (* $ *)
  | Chr (c : N)                          (* a literal character *)
  | Class (p : N → bool)                 (* \d \s \w [...] *)
  | PlusClass (p : N → bool)             (* class+ , greedy *)
  | Seq (r1 r2 : regex)
  | Alt (r1 r2 : regex)                  (* r1|r2 *)
  | Group (n : nat) (r : regex)          (* (r), capture group n *)
  | NonCap (r : regex)                   (* (?:r) *)
  | Lookahead (r : regex).               (* (?=r) *)

(** The matcher's state: the position in the subject and the spans
    (start, end) of the capture groups that took part so far. *)
Record mstate := MState { pos : nat; spans : gmap nat (nat * nat) }.

(** Length of the longest run of [p]-characters at the head of [l]. *)
Fixpoint run_length (p : N → bool) (l : list N) : nat :=
  match l with
  | c :: l' => if p c then S (run_length p l') else 0%nat
  | [] => 0%nat
  end.

(** Greedy backtracking: offer the continuation [j], then [j-1], ...,
    down to one repetition. *)
Fixpoint try_down {A} (k : nat → option A) (j : nat) : option A :=
  match j with
  | O => None
  | S j' => match k j with Some r => Some r | None => try_down k j' end
  end.

(** [$] without MULTILINE: at the end of the subject, or just before a
    newline that ends it. *)
Definition at_eol (rest : list N) : bool :=
  match rest with
  | [] => true
  | [10] => true
  | _ => false
  end.

(** A backtracking matcher in continuation-passing style: [k] is the rest
    of the pattern; alternatives are tried left to right. *)
Fixpoint exec (r : regex) (subj : list N) (st : mstate)
    (k : mstate → option mstate) : option mstate :=
  match r with
  | Bol => if (pos st =? 0)%nat then k st else None
  | Eol => if at_eol (drop (pos st) subj) then k st else None
  | Chr c =>
      match subj !! pos st with
      | Some c' => if c' =? c then k (MState (S (pos st)) (spans st)) else None
      | None => None
      end
  | Class p =>
      match subj !! pos st with
      | Some c' => if p c' then k (MState (S (pos st)) (spans st)) else None
      | None => None
      end
  | PlusClass p =>
      try_down (λ j, k (MState (pos st + j) (spans st)))
               (run_length p (drop (pos st) subj))
  | Seq r1 r2 => exec r1 subj st (λ st', exec r2 subj st' k)
  | Alt r1 r2 =>
      match exec r1 subj st k with
      | Some st' => Some st'
      | None => exec r2 subj st k
      end
  | Group n r =>
      exec r subj st (λ st', k (MState (pos st') (<[n := (pos st, pos st')]> (spans st'))))
  | NonCap r => exec r subj st k
  | Lookahead r =>
      match exec r subj st Some with
      | Some st' => k (MState (pos st) (spans st'))
      | None => None
      end
  end.

(** A match object: the subject and the group spans. *)
Record Match := { m_subject : list N; m_spans : gmap nat (nat * nat) }.

(** [Match.group(n)]: [None] when the group did not take part. *)
Definition group (m : Match) (n : nat) : option (list N) :=
  match m_spans m !! n with
  | Some (i, j) => Some (take (j - i) (drop i (m_subject m)))
  | None => None
  end.

(** Try the start positions [i], [i+1], ... ([fuel] of them). *)
Fixpoint search_from (r : regex) (subj : list N) (i fuel : nat) : option Match :=
  match fuel with
  | O => None
  | S fuel' =>
      match exec r subj (MState i ∅) Some with
      | Some st => Some {| m_subject := subj; m_spans := spans st |}
      | None => search_from r subj (S i) fuel'
      end
  end.

(** [re.search(r, subj)]: the leftmost start position, 0 to [len(subj)],
    at which the pattern matches. *)
Definition search (r : regex) (subj : list N) : option Match :=
  search_from r subj 0 (S (length subj)).

End Re.

(** ** Python values *)

(** A [datetime]: the wall-clock fields as microseconds on a proleptic
    time line, and what [utcoffset()] gives in seconds ([None] for a naive
    object). *)
Record datetime := { dt_wall : Z; dt_utcoffset : option Z }.

(** [d.replace(tzinfo=None)] *)
Definition replace_tzinfo_None (d : datetime) : datetime :=
  {| dt_wall := dt_wall d; dt_utcoffset := None |}.

#[warnings="-register-all"] Inductive value :=
  | VNone
  | VBool (b : bool)
  | VInt (z : Z)
  | VStr (s : list N)
  | VDatetime (d : datetime)
  | VDict (m : gmap (list N) value).

(** Truth value of an object, as [if], [or] and [not] test it. *)
Definition truthy (v : value) : bool :=
  match v with
  | VNone => false
  | VBool b => b
  | VInt z => negb (z =? 0)%Z
  | VStr s => match s with [] => false | _ => true end
  | VDatetime _ => true
  | VDict m => negb (bool_decide (dom m = ∅))
  end.

(** [a or b] *)
Definition py_or (a b : value) : value := if truthy a then a else b.

(** [d.get(k)] and [d.get(k, default)] on a dict. *)
Definition dict_get (d : gmap (list N) value) (k : list N) (default : value) : value :=
  match d !! k with Some v => v | None => default end.

(** ** voluptuous schemas, as declarations *)

Inductive validator := cv_boolean | cv_string | cv_datetime.

Inductive marker :=
  | Optional (key : list N) (default : option value) (v : validator)
  | Required (key : list N) (v : validator).

Abbreviation Schema := (list marker).

(** The dict a schema makes of the empty dict: every [Optional] key that
    declares a default gets it. *)
Fixpoint schema_defaults (s : Schema) : gmap (list N) value :=
  match s with
  | [] => ∅
  | Optional k (Some d) _ :: s' => <[k := d]> (schema_defaults s')
  | _ :: s' => schema_defaults s'
  end.

(** ** The host's objects *)

Record ConfigEntry := {
  entry_id : list N;
  version : Z;
  domain : list N;
  title : list N;
  data : gmap (list N) value
}.

(** A device of the device registry; [config_entries] is its set of
    config-entry ids, in iteration order. *)
Record DeviceEntry := { device_config_entries : list (list N) }.

(** A service call: [call.data]. *)
Record ServiceCall := { call_data : gmap (list N) value }.

(** The callables this module hands to the host. *)
Inductive callback := cb_async_update_options | cb_handle_battery_replaced.

(** Calls that leave this module: into the host platform and into the
    integration's store, coordinator, library updater and discovery manager. *)
Inductive call :=
  | call_async_get_registry
  | call_BatteryNotesCoordinator
  | call_LibraryUpdater
  | call_get_library_updates (now : datetime)
  | call_async_refresh
  | call_DiscoveryManager (config : gmap (list N) value)
  | call_start_discovery
  | call_async_forward_entry_setups (entry : list N) (platforms : list (list N))
  | call_add_update_listener (entry : list N) (listener : callback)
  | call_async_on_unload (entry : list N)
  | call_async_update_device_config (device_id : value) (data : gmap (list N) value)
  | call_async_request_refresh
  | call_async_update_entry (entry : list N) (title : list N) (data : gmap (list N) value)
  | call_async_reload (entry : list N)
  | call_async_unload_platforms (entry : list N) (platforms : list (list N))
  | call_services_async_register (domain service : list N) (handler : callback)
      (schema : Schema).

(** What [hass.data[DOMAIN]] holds. *)
Inductive data_obj :=
  | OValue (v : value)
  | OCoordinator
  | OLibraryUpdater.

(** The [hass] object, as far as this module reaches into it. *)
Record HomeAssistant := {
  hass_data : gmap (list N) (gmap (list N) data_obj);          (* hass.data *)
  hass_config_entries : gmap (list N) ConfigEntry;             (* hass.config_entries *)
  hass_devices : gmap (list N) DeviceEntry;                    (* the device registry *)
  hass_calls : list call                                       (* trace, oldest first *)
}.

(** ** State and exceptions *)

Inductive exn := KeyError | TypeError | AttributeError.

Inductive outcome (A : Type) :=
  | Return (a : A)
  | Raise (e : exn).
Arguments Return {A} a.
Arguments Raise {A} e.

Definition M (A : Type) : Type := HomeAssistant → outcome A * HomeAssistant.

Definition ret {A} (a : A) : M A := λ h, (Return a, h).
Definition raise {A} (e : exn) : M A := λ h, (Raise e, h).
Definition bind {A B} (m : M A) (f : A → M B) : M B :=
  λ h, match m h with
       | (Return a, h') => f a h'
       | (Raise e, h') => (Raise e, h')
       end.

Notation "'let*' x ':=' m 'in' k" := (bind m (λ x, k))
  (at level 10, x name, m at level 100, k at level 200).

Definition get_hass : M HomeAssistant := λ h, (Return h, h).

(** Field updates of the [hass] record. *)
Definition with_calls (h : HomeAssistant) (cs : list call) : HomeAssistant :=
  {| hass_data := hass_data h;
     hass_config_entries := hass_config_entries h;
     hass_devices := hass_devices h;
     hass_calls := cs |}.

Definition with_data (h : HomeAssistant)
    (d : gmap (list N) (gmap (list N) data_obj)) : HomeAssistant :=
  {| hass_data := d;
     hass_config_entries := hass_config_entries h;
     hass_devices := hass_devices h;
     hass_calls := hass_calls h |}.

Definition with_config_entries (h : HomeAssistant)
    (es : gmap (list N) ConfigEntry) : HomeAssistant :=
  {| hass_data := hass_data h;
     hass_config_entries := es;
     hass_devices := hass_devices h;
     hass_calls := hass_calls h |}.

(** Record a call that leaves the module. *)
Definition emit (c : call) : M unit :=
  λ h, (Return tt, with_calls h (hass_calls h ++ [c])).

Definition set_hass_data (d : gmap (list N) (gmap (list N) data_obj)) : M unit :=
  λ h, (Return tt, with_data h d).

(** A config entry that the registry holds is the same object as the one
    the caller passes: a change to it shows in the registry. *)
Definition sync_entry (e : ConfigEntry) : M unit :=
  λ h, (Return tt,
        with_config_entries h (alter (λ _, e) (entry_id e) (hass_config_entries h))).

(** [for x in l: body x] *)
Fixpoint for_each {A} (l : list A) (body : A → M unit) : M unit :=
  match l with
  | [] => ret tt
  | x :: l' => let* _ := body x in for_each l' body
  end.

(** ** What the module imports *)

(** The names imported from [const.py] and [config_flow.py].  Their values
    are fixed by those modules; here they are parameters. *)
Module const.
Record t := {
  DOMAIN : list N;
  DOMAIN_CONFIG : list N;
  PLATFORMS : list (list N);
  CONF_ENABLE_AUTODISCOVERY : list N;
  CONF_USER_LIBRARY : list N;
  DATA_LIBRARY_UPDATER : list N;
  CONF_SHOW_ALL_DEVICES : list N;
  CONF_ENABLE_REPLACED : list N;
  SERVICE_BATTERY_REPLACED : list N;
  SERVICE_BATTERY_REPLACED_SCHEMA : Schema;
  DATA_COORDINATOR : list N;
  ATTR_REMOVE : list N;
  ATTR_DEVICE_ID : list N;
  ATTR_DATE_TIME_REPLACED : list N;
  CONF_BATTERY_TYPE : list N;
  CONF_BATTERY_QUANTITY : list N;
  CONFIG_VERSION : Z
}.
End const.

(** What the host platform and the interpreter bring: the running version,
    the order of [AwesomeVersion], [dt_util.as_utc], the Unicode database. *)
Module host.
Record t := {
  HA_VERSION : list N;
  awesome_lt : list N → list N → bool;
  as_utc : datetime → datetime;
  unicode : Re.unicode_db
}.
End host.

(** A sample instance, used to run the model on concrete inputs. *)
Definition sample_const : const.t := {|
  const.DOMAIN := lit "battery_notes";
  const.DOMAIN_CONFIG := lit "config";
  const.PLATFORMS := [lit "button"; lit "sensor"];
  const.CONF_ENABLE_AUTODISCOVERY := lit "enable_autodiscovery";
  const.CONF_USER_LIBRARY := lit "user_library";
  const.DATA_LIBRARY_UPDATER := lit "library_updater";
  const.CONF_SHOW_ALL_DEVICES := lit "show_all_devices";
  const.CONF_ENABLE_REPLACED := lit "enable_replaced";
  const.SERVICE_BATTERY_REPLACED := lit "set_battery_replaced";
  const.SERVICE_BATTERY_REPLACED_SCHEMA :=
    [ Required (lit "device_id") cv_string;
      Optional (lit "datetime_replaced") None cv_datetime ];
  const.DATA_COORDINATOR := lit "coordinator";
  const.ATTR_REMOVE := lit "remove";
  const.ATTR_DEVICE_ID := lit "device_id";
  const.ATTR_DATE_TIME_REPLACED := lit "datetime_replaced";
  const.CONF_BATTERY_TYPE := lit "battery_type";
  const.CONF_BATTERY_QUANTITY := lit "battery_quantity";
  const.CONFIG_VERSION := 2
|}.

(** A sample host: versions are dotted decimal numbers, compared component
    by component; a naive datetime is taken to be in UTC; no character
    above ASCII is classified. *)
Fixpoint version_components (s : list N) (acc : N) : list N :=
  match s with
  | [] => [acc]
  | c :: s' =>
      if c =? 46 then acc :: version_components s' 0
      else version_components s' (10 * acc + (c - 48))
  end.

Fixpoint components_lt (a b : list N) : bool :=
  match a, b with
  | _, [] => false
  | [], _ :: _ => true
  | x :: a', y :: b' => (x <? y) || ((x =? y) && components_lt a' b')
  end.

Definition sample_lt (a b : list N) : bool :=
  components_lt (version_components a 0) (version_components b 0).

Definition sample_as_utc (d : datetime) : datetime :=
  {| dt_wall := (dt_wall d - 1000000 * default 0 (dt_utcoffset d))%Z;
     dt_utcoffset := Some 0%Z |}.

Definition sample_host (ha_version : list N) : host.t := {|
  host.HA_VERSION := ha_version;
  host.awesome_lt := sample_lt;
  host.as_utc := sample_as_utc;
  host.unicode := Re.ascii_db
|}.

(** ** The module *)

Definition MIN_HA_VERSION : list N := lit "2023.7".

Section BatteryNotes.
Context (K : const.t) (H : host.t).

Local Abbreviation DOMAIN := (const.DOMAIN K).
Local Abbreviation DOMAIN_CONFIG := (const.DOMAIN_CONFIG K).
Local Abbreviation PLATFORMS := (const.PLATFORMS K).
Local Abbreviation CONF_ENABLE_AUTODISCOVERY := (const.CONF_ENABLE_AUTODISCOVERY K).
Local Abbreviation CONF_USER_LIBRARY := (const.CONF_USER_LIBRARY K).
Local Abbreviation DATA_LIBRARY_UPDATER := (const.DATA_LIBRARY_UPDATER K).
Local Abbreviation CONF_SHOW_ALL_DEVICES := (const.CONF_SHOW_ALL_DEVICES K).
Local Abbreviation CONF_ENABLE_REPLACED := (const.CONF_ENABLE_REPLACED K).
Local Abbreviation SERVICE_BATTERY_REPLACED := (const.SERVICE_BATTERY_REPLACED K).
Local Abbreviation SERVICE_BATTERY_REPLACED_SCHEMA := (const.SERVICE_BATTERY_REPLACED_SCHEMA K).
Local Abbreviation DATA_COORDINATOR := (const.DATA_COORDINATOR K).
Local Abbreviation ATTR_REMOVE := (const.ATTR_REMOVE K).
Local Abbreviation ATTR_DEVICE_ID := (const.ATTR_DEVICE_ID K).
Local Abbreviation ATTR_DATE_TIME_REPLACED := (const.ATTR_DATE_TIME_REPLACED K).
Local Abbreviation CONF_BATTERY_TYPE := (const.CONF_BATTERY_TYPE K).
Local Abbreviation CONF_BATTERY_QUANTITY := (const.CONF_BATTERY_QUANTITY K).
Local Abbreviation CONFIG_VERSION := (const.CONFIG_VERSION K).
Local Abbreviation HA_VERSION := (host.HA_VERSION H).

(** A dict display [{k1: v1, ...}]: the items are stored left to right. *)
Definition dict_of (items : list (list N * value)) : gmap (list N) value :=
  foldl (λ m kv, <[kv.1 := kv.2]> m) ∅ items.

(** The schema that [CONFIG_SCHEMA] declares for the section under [DOMAIN]. *)
Definition CONFIG_SCHEMA : Schema :=
  [ Optional CONF_ENABLE_AUTODISCOVERY (Some (VBool true)) cv_boolean;
    Optional CONF_USER_LIBRARY (Some (VStr (lit ""))) cv_string;
    Optional CONF_SHOW_ALL_DEVICES (Some (VBool false)) cv_boolean;
    Optional CONF_ENABLE_REPLACED (Some (VBool true)) cv_boolean ].

(** [v.get(k)] on an object that may not be a dict. *)
Definition value_get (v : value) (k : list N) : M value :=
  match v with
  | VDict m => ret (dict_get m k VNone)
  | _ => raise AttributeError
  end.

(** [hass.data[DOMAIN][k]] *)
Definition domain_data_getitem (k : list N) : M data_obj :=
  let* h := get_hass in
  match hass_data h !! DOMAIN with
  | None => raise KeyError
  | Some d => match d !! k with
              | None => raise KeyError
              | Some o => ret o
              end
  end.

(** [hass.data[DOMAIN][k] = o] *)
Definition domain_data_setitem (k : list N) (o : data_obj) : M unit :=
  let* h := get_hass in
  match hass_data h !! DOMAIN with
  | None => raise KeyError
  | Some d => set_hass_data (<[DOMAIN := <[k := o]> d]> (hass_data h))
  end.

(** A method call on what is expected to be the coordinator. *)
Definition coordinator_method (o : data_obj) (c : call) : M unit :=
  match o with
  | OCoordinator => emit c
  | _ => raise AttributeError
  end.

(** The dict [async_setup] falls back to. *)
Definition fallback_domain_config : gmap (list N) value :=
  dict_of [ (CONF_ENABLE_AUTODISCOVERY, VBool true);
            (CONF_SHOW_ALL_DEVICES, VBool false);
            (CONF_ENABLE_REPLACED, VBool true) ].

(** [domain_config] of [async_setup] *)
Definition domain_config_of (config : gmap (list N) value) : value :=
  py_or (dict_get config DOMAIN VNone) (VDict fallback_domain_config).

(** [utcnow] is what [dt_util.utcnow()] gives when it is called. *)
Definition async_setup (config : gmap (list N) value) (utcnow : datetime) : M bool :=
  if host.awesome_lt H HA_VERSION MIN_HA_VERSION then ret false
  else
    let domain_config := domain_config_of config in
    let* h := get_hass in
    let* _ := set_hass_data
                (<[DOMAIN := {[DOMAIN_CONFIG := OValue domain_config]}]> (hass_data h)) in
    let* _ := emit call_async_get_registry in
    let* _ := emit call_BatteryNotesCoordinator in
    let* _ := domain_data_setitem DATA_COORDINATOR OCoordinator in
    let* _ := emit call_LibraryUpdater in
    let* _ := emit (call_get_library_updates utcnow) in
    let* _ := domain_data_setitem DATA_LIBRARY_UPDATER OLibraryUpdater in
    let* _ := emit call_async_refresh in
    let* enabled := value_get domain_config CONF_ENABLE_AUTODISCOVERY in
    let* _ := (if truthy enabled
               then let* _ := emit (call_DiscoveryManager config) in
                    emit call_start_discovery
               else ret tt) in
    ret true.

Definition register_services : M unit :=
  emit (call_services_async_register DOMAIN SERVICE_BATTERY_REPLACED
          cb_handle_battery_replaced SERVICE_BATTERY_REPLACED_SCHEMA).

Definition async_setup_entry (entry : ConfigEntry) : M bool :=
  let* _ := emit (call_async_forward_entry_setups (entry_id entry) PLATFORMS) in
  let* _ := emit (call_add_update_listener (entry_id entry) cb_async_update_options) in
  let* _ := emit (call_async_on_unload (entry_id entry)) in
  let* _ := register_services in
  ret true.

Definition async_remove_entry (config_entry : ConfigEntry) : M unit :=
  match data config_entry !! lit "device_id" with
  | None => ret tt
  | Some device_id =>
      let* coordinator := domain_data_getitem DATA_COORDINATOR in
      let data := dict_of [ (ATTR_REMOVE, VBool true) ] in
      coordinator_method coordinator (call_async_update_device_config device_id data)
  end.

(** [^(\d+)(?=x)(?:x\s)(\w+$)|([\s\S]+)] *)
Definition migrate_pattern : Re.regex :=
  let db := host.unicode H in
  Re.Alt
    (Re.Seq Re.Bol
      (Re.Seq (Re.Group 1 (Re.PlusClass (Re.is_digit db)))
        (Re.Seq (Re.Lookahead (Re.Chr 120))
          (Re.Seq (Re.NonCap (Re.Seq (Re.Chr 120) (Re.Class (Re.is_space db))))
            (Re.Group 2 (Re.Seq (Re.PlusClass (Re.is_word db)) Re.Eol))))))
    (Re.Group 3 (Re.PlusClass (Re.is_any db))).

(** [re.search(pattern, v)]: the subject has to be a [str]. *)
Definition re_search (r : Re.regex) (v : value) : M (option Re.Match) :=
  match v with
  | VStr s => ret (Re.search r s)
  | _ => raise TypeError
  end.

(** [d[k]] *)
Definition dict_getitem (d : gmap (list N) value) (k : list N) : M value :=
  match d !! k with
  | Some v => ret v
  | None => raise KeyError
  end.

(** What [Match.group] returns, as a value. *)
Definition group_value (g : option (list N)) : value :=
  match g with Some s => VStr s | None => VNone end.

(** The entry is mutated in place; the function returns it next to the
    source's return value. *)
Definition async_migrate_entry (config_entry : ConfigEntry) : M (bool * ConfigEntry) :=
  let new_version := CONFIG_VERSION in
  if (version config_entry =? 1)%Z then
    let* battery_type := dict_getitem (data config_entry) CONF_BATTERY_TYPE in
    let* matches := re_search migrate_pattern battery_type in
    let '(_qty, _type) :=
      match matches with
      | Some m =>
          (match Re.group m 1 with Some g => VStr g | None => VStr (lit "1") end,
           match Re.group m 2 with
           | Some g => VStr g
           | None => group_value (Re.group m 3)
           end)
      | None => (VInt 1, battery_type)
      end in
    let new_data :=
      <[CONF_BATTERY_QUANTITY := _qty]> (<[CONF_BATTERY_TYPE := _type]> (data config_entry)) in
    let versioned :=
      {| entry_id := entry_id config_entry; version := new_version;
         domain := domain config_entry; title := title config_entry;
         data := data config_entry |} in
    let* _ := sync_entry versioned in
    let* _ := emit (call_async_update_entry (entry_id config_entry)
                      (title config_entry) new_data) in
    let updated :=
      {| entry_id := entry_id config_entry; version := new_version;
         domain := domain config_entry; title := title config_entry;
         data := new_data |} in
    let* _ := sync_entry updated in
    ret (true, updated)
  else ret (true, config_entry).

Definition async_update_options (entry : ConfigEntry) : M unit :=
  emit (call_async_reload (entry_id entry)).

(** [unloaded] is the host's answer to [async_unload_platforms]. *)
Definition async_unload_entry (entry : ConfigEntry) (unloaded : bool) : M bool :=
  let* _ := emit (call_async_unload_platforms (entry_id entry) PLATFORMS) in
  ret unloaded.

(** [dr.async_get(hass).async_get(device_id)] *)
Definition device_registry_async_get (h : HomeAssistant) (device_id : value)
    : option DeviceEntry :=
  match device_id with
  | VStr s => hass_devices h !! s
  | _ => None
  end.

(** [dt_util.as_utc(v).replace(tzinfo=None)] *)
Definition as_utc_naive (v : value) : M datetime :=
  match v with
  | VDatetime d => ret (replace_tzinfo_None (host.as_utc H d))
  | _ => raise AttributeError
  end.

(** The body of the loop over the device's config entries. *)
Definition replaced_for_entry (device_id : value) (datetime_replaced : datetime)
    (entry_id : list N) : M unit :=
  let* h := get_hass in
  match hass_config_entries h !! entry_id with
  | Some entry =>
      if bool_decide (domain entry = DOMAIN) then
        let* coordinator := domain_data_getitem DATA_COORDINATOR in
        let device_entry :=
          dict_of [ (lit "battery_last_replaced", VDatetime datetime_replaced) ] in
        let* _ := coordinator_method coordinator
                    (call_async_update_device_config device_id device_entry) in
        coordinator_method coordinator call_async_request_refresh
      else ret tt
  | None => ret tt
  end.

(** The service handler; [utcnow] is what [datetime.utcnow()] gives when
    it is called. *)
Definition handle_battery_replaced (call : ServiceCall) (utcnow : datetime) : M unit :=
  let device_id := dict_get (call_data call) ATTR_DEVICE_ID (VStr (lit "")) in
  let datetime_replaced_entry := dict_get (call_data call) ATTR_DATE_TIME_REPLACED VNone in
  let* datetime_replaced :=
    (if truthy datetime_replaced_entry
     then as_utc_naive datetime_replaced_entry
     else ret utcnow) in
  let* h := get_hass in
  match device_registry_async_get h device_id with
  | None => ret tt
  | Some device_entry =>
      for_each (device_config_entries device_entry)
        (replaced_for_entry device_id datetime_replaced)
  end.

End BatteryNotes.

(** ** The migration, in the words of its description *)

Section Shape.
Context (db : Re.unicode_db).

(** [s] is the digits [ds], an 'x', one whitespace character, the word
    characters [ws], and then [tail]. *)
Definition quantity_x_type (tail s ds ws : list N) : Prop :=
  ∃ w, s = ds ++ 120 :: w :: ws ++ tail ∧
       ds ≠ [] ∧ forallb (Re.is_digit db) ds = true ∧
       Re.is_space db w = true ∧
       ws ≠ [] ∧ forallb (Re.is_word db) ws = true.

(** The word characters run to the end of the string. *)
Definition exact_shape (s ds ws : list N) : Prop := quantity_x_type [] s ds ws.

(** The word characters run to the end of the string, or to one newline
    that ends it. *)
Definition shape_upto_newline (s ds ws : list N) : Prop :=
  quantity_x_type [] s ds ws ∨ quantity_x_type [10] s ds ws.

End Shape.

(** ** What the claims speak of *)

Section Expected.
Context (K : const.t).

(** The entry after a migration that found quantity [qty] and type [type]. *)
Definition migrated (e : ConfigEntry) (qty type : value) : ConfigEntry :=
  {| entry_id := entry_id e;
     version := const.CONFIG_VERSION K;
     domain := domain e;
     title := title e;
     data := <[const.CONF_BATTERY_QUANTITY K := qty]>
               (<[const.CONF_BATTERY_TYPE K := type]> (data e)) |}.

(** [hass] after the migration of [e] into [e']: the call to the host and
    the registry's view of the entry. *)
Definition after_migration (h : HomeAssistant) (e e' : ConfigEntry) : HomeAssistant :=
  {| hass_data := hass_data h;
     hass_config_entries := alter (λ _, e') (entry_id e) (hass_config_entries h);
     hass_devices := hass_devices h;
     hass_calls := hass_calls h ++ [call_async_update_entry (entry_id e) (title e) (data e')] |}.

(** The coordinator is where [async_setup] puts it. *)
Definition coordinator_ready (h : HomeAssistant) : Prop :=
  ∃ d, hass_data h !! const.DOMAIN K = Some d
       ∧ d !! const.DATA_COORDINATOR K = Some OCoordinator.

End Expected.

(** The description of the migration, read at the entry [e] and the state
    [h]: a string of the exact shape digits, 'x', one whitespace character,
    word characters to the end of the string gives the digits and the
    word; every other non-empty string gives '1' and the string itself. *)
Definition migration_as_described (K : const.t) (H : host.t)
    (e : ConfigEntry) (h : HomeAssistant) : Prop :=
  ∀ s, data e !! const.CONF_BATTERY_TYPE K = Some (VStr s) →
  ∃ e' h',
    async_migrate_entry K H e h = (Return (true, e'), h')
    ∧ (∀ ds ws, exact_shape (host.unicode H) s ds ws →
         data e' !! const.CONF_BATTERY_QUANTITY K = Some (VStr ds)
         ∧ data e' !! const.CONF_BATTERY_TYPE K = Some (VStr ws))
    ∧ (s ≠ [] → ¬ (∃ ds ws, exact_shape (host.unicode H) s ds ws) →
         data e' !! const.CONF_BATTERY_QUANTITY K = Some (VStr (lit "1"))
         ∧ data e' !! const.CONF_BATTERY_TYPE K = Some (VStr s)).

(** ** Concrete inputs *)

(** A [hass] in which nothing has happened yet. *)
Definition hass0 : HomeAssistant :=
  {| hass_data := ∅; hass_config_entries := ∅; hass_devices := ∅; hass_calls := [] |}.

(** A config entry of this integration with one battery type string. *)
Definition entry_with_type (v : Z) (battery_type : list N) : ConfigEntry :=
  {| entry_id := lit "e1"; version := v; domain := lit "battery_notes";
     title := lit "Remote";
     data := {[ lit "battery_type" := VStr battery_type ]} |}.

(** A version-1 entry with no battery type at all. *)
Definition entry_without_type : ConfigEntry :=
  {| entry_id := lit "e1"; version := 1; domain := lit "battery_notes";
     title := lit "Remote"; data := ∅ |}.

(** A [hass] in which the integration is set up and device [d1] carries
    the entry [e1] of this integration and an entry [e0] of another one. *)
Definition hass_with_device : HomeAssistant :=
  {| hass_data :=
       {[ lit "battery_notes" :=
            {[ lit "coordinator" := OCoordinator;
               lit "library_updater" := OLibraryUpdater ]} ]};
     hass_config_entries :=
       {[ lit "e0" := {| entry_id := lit "e0"; version := 1; domain := lit "hue";
                         title := lit "Bridge"; data := ∅ |};
          lit "e1" := {| entry_id := lit "e1"; version := 2;
                         domain := lit "battery_notes"; title := lit "Remote";
                         data := {[ lit "device_id" := VStr (lit "d1") ]} |} ]};
     hass_devices := {[ lit "d1" := {| device_config_entries := [lit "e0"; lit "e1"] |} ]};
     hass_calls := [] |}.

Section ExpectedCalls.
Context (K : const.t) (H : host.t).

(** The calls the "battery replaced" handler makes for a device with the
    config entries [entries]: for each one of this integration, the update
    of the device config with the date and a refresh request. *)
Definition replaced_calls (h : HomeAssistant) (device_id : value) (date : datetime)
    (entries : list (list N)) : list call :=
  flat_map
    (λ eid,
       match hass_config_entries h !! eid with
       | Some entry =>
           if bool_decide (domain entry = const.DOMAIN K)
           then [ call_async_update_device_config device_id
                    {[ lit "battery_last_replaced" := VDatetime date ]};
                  call_async_request_refresh ]
           else []
       | None => []
       end)
    entries.

(** Where the handler takes the date from, given the value [v] found under
    [ATTR_DATE_TIME_REPLACED] ([None] when there is none). *)
Definition replaced_date (v : value) (utcnow date : datetime) : Prop :=
  (∃ d, v = VDatetime d ∧ date = replace_tzinfo_None (host.as_utc H d))
  ∨ (truthy v = false ∧ date = utcnow).

(** The one registration this module makes. *)
Definition battery_replaced_registration : call :=
  call_services_async_register (const.DOMAIN K) (const.SERVICE_BATTERY_REPLACED K)
    cb_handle_battery_replaced (const.SERVICE_BATTERY_REPLACED_SCHEMA K).

(** The effective value of [enable_autodiscovery]. *)
Definition autodiscovery (config : gmap (list N) value) : value :=
  match domain_config_of K config with
  | VDict m => dict_get m (const.CONF_ENABLE_AUTODISCOVERY K) VNone
  | _ => VNone
  end.

(** The calls of a set-up that passes the version gate. *)
Definition setup_calls (config : gmap (list N) value) (utcnow : datetime) : list call :=
  [ call_async_get_registry; call_BatteryNotesCoordinator; call_LibraryUpdater;
    call_get_library_updates utcnow; call_async_refresh ]
  ++ (if truthy (autodiscovery config)
      then [ call_DiscoveryManager config; call_start_discovery ]
      else []).

(** [hass] after such a set-up. *)
Definition after_setup (h : HomeAssistant) (config : gmap (list N) value)
    (utcnow : datetime) : HomeAssistant :=
  {| hass_data :=
       <[const.DOMAIN K :=
           <[const.DATA_LIBRARY_UPDATER K := OLibraryUpdater]>
             (<[const.DATA_COORDINATOR K := OCoordinator]>
                {[ const.DOMAIN_CONFIG K := OValue (domain_config_of K config) ]})]>
         (hass_data h);
     hass_config_entries := hass_config_entries h;
     hass_devices := hass_devices h;
     hass_calls := hass_calls h ++ setup_calls config utcnow |}.

(** The functions of the module, with their arguments. *)
Inductive entry_point :=
  | ep_async_setup (config : gmap (list N) value) (utcnow : datetime)
  | ep_async_setup_entry (entry : ConfigEntry)
  | ep_async_remove_entry (config_entry : ConfigEntry)
  | ep_async_migrate_entry (config_entry : ConfigEntry)
  | ep_async_update_options (entry : ConfigEntry)
  | ep_async_unload_entry (entry : ConfigEntry) (unloaded : bool)
  | ep_register_services
  | ep_handle_battery_replaced (call : ServiceCall) (utcnow : datetime).

(** [hass] after a run of one of them. *)
Definition run (ep : entry_point) (h : HomeAssistant) : HomeAssistant :=
  match ep with
  | ep_async_setup config utcnow => (async_setup K H config utcnow h).2
  | ep_async_setup_entry entry => (async_setup_entry K entry h).2
  | ep_async_remove_entry config_entry => (async_remove_entry K config_entry h).2
  | ep_async_migrate_entry config_entry => (async_migrate_entry K H config_entry h).2
  | ep_async_update_options entry => (async_update_options entry h).2
  | ep_async_unload_entry entry unloaded => (async_unload_entry K entry unloaded h).2
  | ep_register_services => (register_services K h).2
  | ep_handle_battery_replaced call utcnow => (handle_battery_replaced K H call utcnow h).2
  end.

Definition is_registration (c : call) : bool :=
  match c with
  | call_services_async_register _ _ _ _ => true
  | _ => false
  end.

End ExpectedCalls.

(** The computation [m] only appends calls to the trace, and every call it
    appends satisfies [P]. *)
Definition appends (P : call → Prop) {A} (m : M A) : Prop :=
  ∀ h, ∃ cs, hass_calls (m h).2 = hass_calls h ++ cs ∧ Forall P cs.

(** The host guarantees what [CONFIG_SCHEMA] declares: the section of the
    integration, if there is one, is a dict; so [domain_config] is one. *)
Definition domain_section_ok (K : const.t) (config : gmap (list N) value) : Prop :=
  ∃ m, domain_config_of K config = VDict m.

(** Service calls for the device [d1], without and with a date (noon, one
    hour east of UTC), and for a device the registry does not know. *)
Definition call_d1 : ServiceCall :=
  {| call_data := {[ lit "device_id" := VStr (lit "d1") ]} |}.

Definition call_d1_dated : ServiceCall :=
  {| call_data :=
       {[ lit "device_id" := VStr (lit "d1");
          lit "datetime_replaced" :=
            VDatetime {| dt_wall := 43200000000; dt_utcoffset := Some 3600%Z |} ]} |}.

Definition call_unknown : ServiceCall :=
  {| call_data := {[ lit "device_id" := VStr (lit "d9") ]} |}.

(** A clock reading. *)
Definition sample_now : datetime := {| dt_wall := 50000000000; dt_utcoffset := None |}.

(** ** Frames and missing set-up *)

(** The computation [m] leaves the part [f] of [hass] as it is, whether it
    returns or raises. *)
Definition keeps {X A} (f : HomeAssistant → X) (m : M A) : Prop :=
  ∀ h, f (m h).2 = f h.

Definition is_setup (ep : entry_point) : bool :=
  match ep with ep_async_setup _ _ => true | _ => false end.

Definition is_migrate (ep : entry_point) : bool :=
  match ep with ep_async_migrate_entry _ => true | _ => false end.

(** [hass.data[DOMAIN][DATA_COORDINATOR]] is not there: the integration's
    [async_setup] has not stored it. *)
Definition coordinator_missing (K : const.t) (h : HomeAssistant) : Prop :=
  match hass_data h !! const.DOMAIN K with
  | None => True
  | Some d => d !! const.DATA_COORDINATOR K = None
  end.

(** The state [hass_with_device] before the integration is set up. *)
Definition hass_not_set_up : HomeAssistant := with_data hass_with_device ∅.

(** A device that carries an entry of another integration and an entry id
    the registry does not know. *)
Definition hass_foreign_device : HomeAssistant :=
  {| hass_data := hass_data hass_with_device;
     hass_config_entries := hass_config_entries hass_with_device;
     hass_devices := {[ lit "d2" := {| device_config_entries := [lit "e0"; lit "e7"] |} ]};
     hass_calls := [] |}.

Definition call_d2 : ServiceCall :=
  {| call_data := {[ lit "device_id" := VStr (lit "d2") ]} |}.

(** The entry [e1] of [hass_with_device]. *)
Definition entry_e1 : ConfigEntry :=
  {| entry_id := lit "e1"; version := 2; domain := lit "battery_notes";
     title := lit "Remote"; data := {[ lit "device_id" := VStr (lit "d1") ]} |}.

(** A version-1 entry that the registry holds, with one more key. *)
Definition entry_v1_registered : ConfigEntry :=
  {| entry_id := lit "e0"; version := 1; domain := lit "battery_notes";
     title := lit "Sensor";
     data := {[ lit "battery_type" := VStr (lit "3x AAA");
                lit "device_id" := VStr (lit "d1") ]} |}.

(** * Properties *)

(** ** The matcher *)

Module ReFacts.
Import Re.

Lemma try_down_Some {A} (k : nat → option A) n r :
  try_down k n = Some r → ∃ j, (1 ≤ j ≤ n)%nat ∧ k j = Some r.
Proof.
  induction n as [|n IH]; simpl; [done|].
  destruct (k (S n)) as [r'|] eqn:E.
  - intros [= <-]. exists (S n). split; [lia|done].
  - intros Hn. destruct (IH Hn) as (j & ? & ?). exists j. split; [lia|done].
Qed.

Lemma try_down_None {A} (k : nat → option A) n :
  (∀ j, (1 ≤ j ≤ n)%nat → k j = None) → try_down k n = None.
Proof.
  induction n as [|n IH]; simpl; [done|]. intros Hk.
  rewrite Hk by lia. apply IH. intros j ?. apply Hk. lia.
Qed.

Lemma try_down_top {A} (k : nat → option A) n :
  (1 ≤ n)%nat → (∀ j, (1 ≤ j < n)%nat → k j = None) → try_down k n = k n.
Proof.
  destruct n as [|n]; [lia|]. intros _ Hk. simpl.
  destruct (k (S n)); [done|]. apply try_down_None. intros j ?. apply Hk. lia.
Qed.

Lemma run_length_le p l : (run_length p l ≤ length l)%nat.
Proof. induction l as [|c l IH]; simpl; [lia|]. destruct (p c); simpl; lia. Qed.

Lemma run_length_lookup p l j :
  (j < run_length p l)%nat → ∃ c, l !! j = Some c ∧ p c = true.
Proof.
  revert j. induction l as [|c l IH]; simpl; intros j Hj; [lia|].
  destruct (p c) eqn:E; [|lia].
  destruct j as [|j]; [by exists c|]. apply IH. lia.
Qed.

Lemma run_length_take p l j :
  (j ≤ run_length p l)%nat → forallb p (take j l) = true.
Proof.
  revert j. induction l as [|c l IH]; simpl; intros j Hj.
  - by destruct j.
  - destruct j as [|j]; [done|]. destruct (p c) eqn:E; [|lia].
    simpl. rewrite E. apply IH. lia.
Qed.

Lemma run_length_app p run rest :
  forallb p run = true →
  match rest with c :: _ => p c = false | [] => True end →
  run_length p (run ++ rest) = length run.
Proof.
  intros Hrun Hrest. induction run as [|c run IH]; simpl in *.
  - destruct rest as [|c rest]; [done|]. simpl. by rewrite Hrest.
  - apply andb_prop in Hrun as [-> Hrun]. by rewrite IH.
Qed.

End ReFacts.

(** ** The migration pattern *)

Section PatternFacts.
Context (H : host.t).
Import Re ReFacts.
Local Abbreviation db := (host.unicode H).

Lemma x_not_digit c : is_digit db c = true → (c =? 120) = false.
Proof.
  intros Hc. destruct (N.eqb_spec c 120) as [->|]; [|done].
  by compute in Hc.
Qed.

Lemma newline_not_word c : is_word db c = true → c ≠ 10.
Proof. intros Hc ->. by compute in Hc. Qed.

Lemma forallb_lookup (p : N → bool) l j c :
  forallb p l = true → l !! j = Some c → p c = true.
Proof.
  intros Hl Hj. rewrite forallb_forall in Hl. apply Hl.
  apply list_elem_of_In. by eapply list_elem_of_lookup_2.
Qed.

Lemma nonempty_length {A} (l : list A) : l ≠ [] → (1 ≤ length l)%nat.
Proof. destruct l; [done|simpl; lia]. Qed.

Lemma at_eol_word ws tail j :
  forallb (is_word db) ws = true → (j < length ws)%nat →
  at_eol (drop j (ws ++ tail)) = false.
Proof.
  intros Hws Hj. destruct (lookup_lt_is_Some_2 ws j Hj) as [c Hc].
  rewrite drop_app_le by lia.
  rewrite (drop_S _ _ _ Hc). simpl.
  pose proof (newline_not_word c (forallb_lookup _ _ _ _ Hws Hc)) as Hne.
  destruct c as [|p]; [done|].
  repeat (destruct p as [p|p|]; try done).
Qed.

Lemma first_alt_complete tail s ds ws :
  quantity_x_type db tail s ds ws → tail = [] ∨ tail = [10] →
  exec (migrate_pattern H) s (MState 0 ∅) Some =
    Some (MState (S (S (length ds + length ws)))
            (<[2%nat := (S (S (length ds)), S (S (length ds + length ws)))]>
               (<[1%nat := (0%nat, length ds)]> ∅))).
Proof.
  intros (w & Hs & Hds & Hdig & Hw & Hws & Hword) Htail.
  assert (Hrun : run_length (is_digit db) s = length ds).
  { subst s. by apply run_length_app. }
  assert (Hlow : ∀ j, (j < length ds)%nat →
            ∃ c, s !! j = Some c ∧ (c =? 120) = false).
  { intros j Hj. destruct (lookup_lt_is_Some_2 ds j Hj) as [c Hc].
    exists c. subst s. rewrite (lookup_app_l_Some _ _ _ _ Hc).
    eauto using x_not_digit, forallb_lookup. }
  assert (Hx : s !! length ds = Some 120).
  { subst s. by apply list_lookup_middle. }
  assert (Hw' : s !! S (length ds) = Some w).
  { subst s. rewrite lookup_app_r by lia.
    by replace (S (length ds) - length ds)%nat with 1%nat by lia. }
  assert (Hdrop : ∀ j, drop (S (S (length ds + j))) s = drop j (ws ++ tail)).
  { intros j. subst s.
    replace (S (S (length ds + j))) with (length ds + S (S j))%nat by lia.
    by rewrite drop_app_add. }
  assert (Hdrop0 : drop (S (S (length ds))) s = ws ++ tail).
  { rewrite <- (Nat.add_0_r (length ds)). by rewrite Hdrop. }
  clear Hs. unfold migrate_pattern. cbn [exec pos spans].
  rewrite drop_0, Hrun.
  rewrite try_down_top; [|by apply nonempty_length|].
  2:{ intros j Hj. cbn [Nat.add].
      destruct (Hlow j) as (c & -> & ->); [lia|done]. }
  cbn [Nat.add Nat.eqb]. rewrite Hx, N.eqb_refl, Hw', Hw.
  rewrite Hdrop0.
  rewrite (run_length_app _ ws).
  2: done.
  2:{ destruct Htail as [->| ->]; [done|reflexivity]. }
  rewrite try_down_top; [|by apply nonempty_length|].
  2:{ intros j Hj. rewrite Hdrop. by rewrite at_eol_word by (done || lia). }
  rewrite Hdrop, drop_app_length.
  by replace (at_eol tail) with true by (by destruct Htail as [->| ->]).
Qed.

Lemma at_eol_true l : at_eol l = true → l = [] ∨ l = [10].
Proof.
  destruct l as [|c [|c' l]]; simpl; [by left| |by destruct c as [|p]; repeat (destruct p as [p|p|]; try done)].
  destruct c as [|p]; [done|].
  repeat (destruct p as [p|p|]; try done). by right.
Qed.

Lemma take_nonempty {A} (l : list A) j :
  (1 ≤ j ≤ length l)%nat → take j l ≠ [].
Proof.
  intros Hj Hnil. apply (f_equal length) in Hnil.
  rewrite length_take in Hnil. simpl in Hnil. lia.
Qed.

Lemma is_any_true c : is_any db c = true.
Proof. unfold is_any. by destruct (is_space db c). Qed.

Lemma run_length_any l : run_length (is_any db) l = length l.
Proof. induction l as [|c l IH]; simpl; [done|]. by rewrite is_any_true, IH. Qed.

(** What a match of the pattern at position 0 looks like. *)
Lemma exec_migrate_pattern_inv s st :
  exec (migrate_pattern H) s (MState 0 ∅) Some = Some st →
  (∃ ds ws, shape_upto_newline db s ds ws)
  ∨ (s ≠ [] ∧ spans st = <[3%nat := (0%nat, length s)]> ∅).
Proof.
  unfold migrate_pattern. cbn [exec pos spans]. rewrite drop_0.
  cbn [Nat.add Nat.eqb].
  match goal with |- match ?e with _ => _ end = _ → _ => destruct e as [st1|] eqn:E1 end.
  - intros _. left.
    apply try_down_Some in E1 as (j & Hj & E1).
    destruct (s !! j) as [c|] eqn:Hc; [|done].
    destruct (N.eqb_spec c 120) as [->|]; [|done].
    destruct (s !! S j) as [w|] eqn:Hw; [|done].
    destruct (is_space db w) eqn:Hsp; [|done].
    apply try_down_Some in E1 as (j2 & Hj2 & E1).
    destruct (at_eol (drop (S (S (j + j2))) s)) eqn:Heol; [|done].
    exists (take j s), (take j2 (drop (S (S j)) s)).
    pose proof (run_length_le (is_word db) (drop (S (S j)) s)).
    assert (quantity_x_type db (drop (S (S (j + j2))) s) s
              (take j s) (take j2 (drop (S (S j)) s))) as Hq.
    { exists w. repeat split.
      + rewrite <- (take_drop j s) at 1. f_equal.
        rewrite (drop_S _ _ _ Hc). f_equal.
        rewrite (drop_S _ _ _ Hw). f_equal.
        rewrite <- (take_drop j2 (drop (S (S j)) s)) at 1. f_equal.
        rewrite drop_drop. f_equal; lia.
      + apply take_nonempty. apply lookup_lt_Some in Hc. lia.
      + apply run_length_take. lia.
      + done.
      + apply take_nonempty. lia.
      + apply run_length_take. lia. }
    destruct (at_eol_true _ Heol) as [Ht|Ht]; rewrite Ht in Hq; [by left|by right].
  - rewrite run_length_any. destruct s as [|c s]; [done|].
    simpl. intros [= <-]. by right.
Qed.

Lemma search_migrate_pattern_empty : search (migrate_pattern H) [] = None.
Proof. reflexivity. Qed.

(** A string of the shape is split at the 'x'. *)
Lemma search_migrate_pattern_shape s ds ws :
  shape_upto_newline db s ds ws →
  ∃ m, search (migrate_pattern H) s = Some m
       ∧ group m 1 = Some ds ∧ group m 2 = Some ws.
Proof.
  intros Hs.
  assert (∃ tail, quantity_x_type db tail s ds ws ∧ (tail = [] ∨ tail = [10]))
    as (tail & Hq & Htail) by (destruct Hs; eauto).
  unfold search. cbn [search_from].
  rewrite (first_alt_complete tail s ds ws Hq Htail).
  eexists. split; [done|].
  destruct Hq as (w & -> & _).
  unfold group. cbn [m_spans m_subject].
  cbn [spans]. rewrite lookup_insert_ne, lookup_insert_eq, lookup_insert_eq by done.
  split; f_equal.
  - rewrite Nat.sub_0_r, drop_0. by rewrite take_app_length.
  - replace (S (S (length ds + length ws)) - S (S (length ds)))%nat
      with (length ws) by lia.
    replace (S (S (length ds))) with (length ds + 2)%nat by lia.
    rewrite drop_app_add. cbn [drop]. rewrite drop_0.
    by rewrite take_app_length.
Qed.

(** Any other non-empty string is matched whole by the second alternative. *)
Lemma search_migrate_pattern_other s :
  s ≠ [] → ¬ (∃ ds ws, shape_upto_newline db s ds ws) →
  ∃ m, search (migrate_pattern H) s = Some m
       ∧ group m 1 = None ∧ group m 2 = None ∧ group m 3 = Some s.
Proof.
  intros Hne Hno. unfold search. cbn [search_from].
  destruct (exec (migrate_pattern H) s (MState 0 ∅) Some) as [st|] eqn:E.
  - destruct (exec_migrate_pattern_inv s st E) as [Hs|[_ Hsp]]; [done|].
    eexists. split; [done|]. unfold group. cbn [m_spans m_subject spans]. rewrite Hsp.
    rewrite !lookup_insert_ne, lookup_empty by done.
    rewrite lookup_insert_eq, Nat.sub_0_r, drop_0.
    by rewrite firstn_all.
  - exfalso. revert E. unfold migrate_pattern. cbn [exec pos spans].
    rewrite drop_0, run_length_any.
    match goal with |- match ?e with _ => _ end = _ → _ => destruct e end; [done|].
    by destruct s.
Qed.
(** Whether a string has the shape shows in the match at position 0. *)
Lemma shape_upto_newline_dec s :
  (∃ ds ws, shape_upto_newline db s ds ws) ∨ ¬ (∃ ds ws, shape_upto_newline db s ds ws).
Proof.
  destruct (exec (migrate_pattern H) s (MState 0 ∅) Some) as [st|] eqn:E.
  - destruct (exec_migrate_pattern_inv s st E) as [Hs|[_ Hsp]]; [by left|].
    right. intros (ds & ws & Hs).
    assert (∃ tail, quantity_x_type db tail s ds ws ∧ (tail = [] ∨ tail = [10]))
      as (tail & Hq & Htail) by (destruct Hs; eauto).
    rewrite (first_alt_complete tail s ds ws Hq Htail) in E.
    injection E as <-. cbn [spans] in Hsp.
    apply (f_equal (λ m : gmap nat (nat * nat), m !! 1%nat)) in Hsp.
    by rewrite lookup_insert_ne, lookup_insert_eq, lookup_insert_ne, lookup_empty in Hsp.
  - right. intros (ds & ws & Hs).
    assert (∃ tail, quantity_x_type db tail s ds ws ∧ (tail = [] ∨ tail = [10]))
      as (tail & Hq & Htail) by (destruct Hs; eauto).
    by rewrite (first_alt_complete tail s ds ws Hq Htail) in E.
Qed.
End PatternFacts.

(** ** [async_migrate_entry] *)

Section MigrateFacts.
Context (K : const.t) (H : host.t).
Local Abbreviation db := (host.unicode H).

Lemma alter_const_twice (es : gmap (list N) ConfigEntry) i e1 e2 :
  alter (λ _, e2) i (alter (λ _, e1) i es) = alter (λ _, e2) i es.
Proof.
  apply map_eq. intros j. destruct (decide (i = j)) as [->|Hne].
  - rewrite !lookup_alter_eq. by destruct (es !! j).
  - by rewrite !lookup_alter_ne.
Qed.

(** A version-1 entry with a string under [CONF_BATTERY_TYPE]: the run of
    the migration, with the quantity and type still as the source computes
    them from the match object. *)
Lemma async_migrate_entry_v1 e h s :
  version e = 1%Z → data e !! const.CONF_BATTERY_TYPE K = Some (VStr s) →
  ∃ qty type,
    (qty, type) =
      match Re.search (migrate_pattern H) s with
      | Some m =>
          (match Re.group m 1 with Some g => VStr g | None => VStr (lit "1") end,
           match Re.group m 2 with
           | Some g => VStr g
           | None => group_value (Re.group m 3)
           end)
      | None => (VInt 1, VStr s)
      end
    ∧ async_migrate_entry K H e h =
        (Return (true, migrated K e qty type), after_migration h e (migrated K e qty type)).
Proof.
  intros Hv Ht. unfold async_migrate_entry. rewrite Hv. cbn [Z.eqb Pos.eqb].
  unfold dict_getitem, bind. rewrite Ht. cbn.
  destruct (match Re.search (migrate_pattern H) s with
            | Some m => _ | None => _ end) as [qty type] eqn:E.
  exists qty, type. split; [done|].
  unfold after_migration, with_calls, with_config_entries. cbn.
  by rewrite alter_const_twice.
Qed.
End MigrateFacts.

Section MigrateClaims.
Context (K : const.t) (H : host.t).
Local Abbreviation db := (host.unicode H).

(** C1, amended.  A version-1 entry whose battery type is digits, 'x', one
    whitespace character and then word characters that run to the end of
    the string, or to a single newline that ends it, is migrated to the
    digits as quantity and the word as type; every other non-empty string
    is migrated to the quantity '1' and the string itself as type. *)
Theorem migrate_splits_quantity_and_type e h s :
  version e = 1%Z →
  data e !! const.CONF_BATTERY_TYPE K = Some (VStr s) →
  const.CONF_BATTERY_TYPE K ≠ const.CONF_BATTERY_QUANTITY K →
  ∃ e' h',
    async_migrate_entry K H e h = (Return (true, e'), h')
    ∧ (∀ ds ws, shape_upto_newline db s ds ws →
         data e' !! const.CONF_BATTERY_QUANTITY K = Some (VStr ds)
         ∧ data e' !! const.CONF_BATTERY_TYPE K = Some (VStr ws))
    ∧ (s ≠ [] → ¬ (∃ ds ws, shape_upto_newline db s ds ws) →
         data e' !! const.CONF_BATTERY_QUANTITY K = Some (VStr (lit "1"))
         ∧ data e' !! const.CONF_BATTERY_TYPE K = Some (VStr s)).
Proof.
  intros Hv Ht Hkeys.
  destruct (async_migrate_entry_v1 K H e h s Hv Ht) as (qty & type & Hqt & Hrun).
  eexists _, _. split; [exact Hrun|]. cbn [migrated data].
  rewrite lookup_insert_eq, lookup_insert_ne, lookup_insert_eq by done.
  split.
  - intros ds ws Hs.
    destruct (search_migrate_pattern_shape H s ds ws Hs) as (m & Hm & H1 & H2).
    rewrite Hm, H1, H2 in Hqt. by injection Hqt as -> ->.
  - intros Hne Hno.
    destruct (search_migrate_pattern_other H s Hne Hno) as (m & Hm & H1 & H2 & H3).
    rewrite Hm, H1, H2, H3 in Hqt. by injection Hqt as -> ->.
Qed.

(** C8.  On the empty string the search finds no match and the migrated
    quantity is the integer 1; on every non-empty string the migrated
    quantity is a string, '1' or the digits the pattern matched. *)
Theorem migrate_quantity_int_on_empty_string e h s :
  version e = 1%Z →
  data e !! const.CONF_BATTERY_TYPE K = Some (VStr s) →
  ∃ e' h',
    async_migrate_entry K H e h = (Return (true, e'), h')
    ∧ (s = [] →
         Re.search (migrate_pattern H) s = None
         ∧ data e' !! const.CONF_BATTERY_QUANTITY K = Some (VInt 1))
    ∧ (s ≠ [] →
         ∃ q, data e' !! const.CONF_BATTERY_QUANTITY K = Some (VStr q)
              ∧ (q = lit "1" ∨ ∃ ws, shape_upto_newline db s q ws)).
Proof.
  intros Hv Ht.
  destruct (async_migrate_entry_v1 K H e h s Hv Ht) as (qty & type & Hqt & Hrun).
  eexists _, _. split; [exact Hrun|]. cbn [migrated data].
  rewrite lookup_insert_eq. split.
  - intros ->. split; [apply search_migrate_pattern_empty|].
    rewrite search_migrate_pattern_empty in Hqt. by injection Hqt as -> _.
  - intros Hne. destruct (shape_upto_newline_dec H s) as [(ds & ws & Hs)|Hno].
    + destruct (search_migrate_pattern_shape H s ds ws Hs) as (m & Hm & H1 & H2).
      rewrite Hm, H1, H2 in Hqt. injection Hqt as -> _. eauto.
    + destruct (search_migrate_pattern_other H s Hne Hno) as (m & Hm & H1 & H2 & H3).
      rewrite Hm, H1, H2, H3 in Hqt. injection Hqt as -> _. eauto.
Qed.

(** C2, amended.  An entry whose version is not 1 is left as it is, and so
    is [hass], and the migration returns True; it returns True as well on
    every version-1 entry that holds a string under [CONF_BATTERY_TYPE]. *)
Theorem migrate_is_one_time e h :
  (version e ≠ 1%Z → async_migrate_entry K H e h = (Return (true, e), h))
  ∧ ((version e = 1%Z → ∃ s, data e !! const.CONF_BATTERY_TYPE K = Some (VStr s)) →
     ∃ e' h', async_migrate_entry K H e h = (Return (true, e'), h')).
Proof.
  split.
  - intros Hv. unfold async_migrate_entry.
    by destruct (Z.eqb_spec (version e) 1%Z).
  - intros Hwf. destruct (Z.eq_dec (version e) 1%Z) as [Hv|Hv].
    + destruct (Hwf Hv) as [s Ht].
      destruct (async_migrate_entry_v1 K H e h s Hv Ht) as (qty & type & _ & Hrun).
      eauto.
    + unfold async_migrate_entry.
      destruct (Z.eqb_spec (version e) 1%Z); [done|eauto].
Qed.
End MigrateClaims.

(** In a string of the exact shape the last character is a word character. *)
Lemma exact_shape_last db s ds ws c :
  exact_shape db s ds ws → last s = Some c → Re.is_word db c = true.
Proof.
  intros (w & -> & _ & _ & _ & Hws & Hword). rewrite app_nil_r.
  rewrite !last_app, !last_cons. destruct (last ws) as [c'|] eqn:Hl.
  - intros [= ->]. rewrite forallb_forall in Hword. apply Hword.
    apply last_Some in Hl as [l' ->]. apply in_or_app. right. by left.
  - by apply last_None in Hl.
Qed.

(** C1, as stated, fails on '2x AA' followed by a newline: the string is
    not of the exact shape, and yet it is split into '2' and 'AA'. *)
Lemma migration_not_as_described_before_newline :
  ¬ migration_as_described sample_const (sample_host (lit "2023.12.1"))
      (entry_with_type 1 (lit "2x AA" ++ [10])) hass0.
Proof.
  intros Hd.
  destruct (Hd (lit "2x AA" ++ [10]) eq_refl) as (e' & h' & Hrun & _ & Hother).
  vm_compute in Hrun. injection Hrun as <- <-.
  destruct Hother as [Hq _].
  - discriminate.
  - intros (ds & ws & Hs).
    pose proof (exact_shape_last _ _ _ _ 10 Hs eq_refl) as Hw. discriminate Hw.
  - vm_compute in Hq. discriminate Hq.
Qed.

(** C2, as stated, fails on a version-1 entry without a battery type: the
    lookup of [CONF_BATTERY_TYPE] raises [KeyError] and nothing is returned. *)
Lemma migrate_raises_without_battery_type :
  async_migrate_entry sample_const (sample_host (lit "2023.12.1"))
    entry_without_type hass0 = (Raise KeyError, hass0)
  ∧ ¬ ∃ e' h',
        async_migrate_entry sample_const (sample_host (lit "2023.12.1"))
          entry_without_type hass0 = (Return (true, e'), h').
Proof.
  split; [reflexivity|]. intros (e' & h' & Hrun). discriminate Hrun.
Qed.

Lemma migrate_splits_quantity_and_type_witness :
  ∃ e' h',
    async_migrate_entry sample_const (sample_host (lit "2023.12.1"))
      (entry_with_type 1 (lit "12x AAA")) hass0 = (Return (true, e'), h')
    ∧ data e' !! lit "battery_quantity" = Some (VStr (lit "12"))
    ∧ data e' !! lit "battery_type" = Some (VStr (lit "AAA")).
Proof.
  destruct (migrate_splits_quantity_and_type sample_const
              (sample_host (lit "2023.12.1"))
              (entry_with_type 1 (lit "12x AAA")) hass0 (lit "12x AAA"))
    as (e' & h' & Hrun & Hshape & _).
  - reflexivity.
  - reflexivity.
  - vm_compute. discriminate.
  - exists e', h'. split; [exact Hrun|].
    apply (Hshape (lit "12") (lit "AAA")). left. exists 32.
    repeat split; (reflexivity || discriminate).
Defined.

Lemma migrate_quantity_int_on_empty_string_witness :
  ∃ e' h',
    async_migrate_entry sample_const (sample_host (lit "2023.12.1"))
      (entry_with_type 1 (lit "")) hass0 = (Return (true, e'), h')
    ∧ data e' !! lit "battery_quantity" = Some (VInt 1).
Proof.
  destruct (migrate_quantity_int_on_empty_string sample_const
              (sample_host (lit "2023.12.1"))
              (entry_with_type 1 (lit "")) hass0 (lit ""))
    as (e' & h' & Hrun & Hempty & _).
  - reflexivity.
  - reflexivity.
  - exists e', h'. split; [exact Hrun|]. apply Hempty. reflexivity.
Defined.

Lemma migrate_is_one_time_witness :
  async_migrate_entry sample_const (sample_host (lit "2023.12.1"))
    (entry_with_type 2 (lit "2x AA")) hass0
  = (Return (true, entry_with_type 2 (lit "2x AA")), hass0)
  ∧ ∃ e' h',
      async_migrate_entry sample_const (sample_host (lit "2023.12.1"))
        (entry_with_type 1 (lit "2x AA")) hass0 = (Return (true, e'), h').
Proof.
  split.
  - apply (migrate_is_one_time sample_const (sample_host (lit "2023.12.1"))
             (entry_with_type 2 (lit "2x AA")) hass0).
    discriminate.
  - apply (migrate_is_one_time sample_const (sample_host (lit "2023.12.1"))
             (entry_with_type 1 (lit "2x AA")) hass0).
    intros _. exists (lit "2x AA"). reflexivity.
Defined.

(** ** The service handler, [async_remove_entry], [async_update_options] *)

Section ServiceClaims.
Context (K : const.t) (H : host.t).

Lemma with_calls_id h : with_calls h (hass_calls h) = h.
Proof. by destruct h. Qed.

Lemma coordinator_ready_getitem h :
  coordinator_ready K h →
  domain_data_getitem K (const.DATA_COORDINATOR K) h = (Return OCoordinator, h).
Proof.
  intros (d & Hd & Hc). unfold domain_data_getitem, bind, get_hass.
  by rewrite Hd, Hc.
Qed.

Lemma emit_with_calls h cs c :
  emit c (with_calls h cs) = (Return tt, with_calls h (cs ++ [c])).
Proof. reflexivity. Qed.

(** The loop of the handler appends the expected calls and changes nothing
    else. *)
Lemma for_each_replaced h device_id date entries cs :
  coordinator_ready K h →
  for_each entries (replaced_for_entry K device_id date) (with_calls h cs)
  = (Return tt, with_calls h (cs ++ replaced_calls K h device_id date entries)).
Proof.
  intros Hready. revert cs.
  induction entries as [|eid entries IH]; intros cs; cbn [for_each replaced_calls flat_map].
  - by rewrite app_nil_r.
  - unfold bind at 1. unfold replaced_for_entry at 1. unfold bind at 1, get_hass at 1.
    cbn [with_calls hass_config_entries].
    destruct (hass_config_entries h !! eid) as [entry|]; [|apply IH].
    destruct (bool_decide (domain entry = const.DOMAIN K)); [|apply IH].
    unfold bind.
    rewrite (coordinator_ready_getitem (with_calls h cs)) by exact Hready.
    cbn [coordinator_method]. rewrite !emit_with_calls, IH.
    by rewrite <- !app_assoc.
Qed.

Local Abbreviation device_id_of call :=
  (dict_get (call_data call) (const.ATTR_DEVICE_ID K) (VStr (lit ""))).
Local Abbreviation date_entry_of call :=
  (dict_get (call_data call) (const.ATTR_DATE_TIME_REPLACED K) VNone).
Local Abbreviation calls_of call h device date :=
  (replaced_calls K h (device_id_of call) date (device_config_entries device)).

(** Working out the date does not touch [hass]. *)
Lemma replaced_date_pure v utcnow h :
  ∃ r, (if truthy v then as_utc_naive H v else ret utcnow) h = (r, h).
Proof. destruct (truthy v); [destruct v|]; by eexists. Qed.

(** C3.  When the device registry has no device for the call's device id,
    the handler leaves [hass] as it is: no call to the coordinator, no
    refresh request; and it returns normally (the date attribute being
    absent, falsy or a datetime). *)
Theorem battery_replaced_unknown_device call utcnow h :
  device_registry_async_get h (device_id_of call) = None →
  (handle_battery_replaced K H call utcnow h).2 = h
  ∧ (truthy (date_entry_of call) = false ∨ (∃ d, date_entry_of call = VDatetime d) →
     handle_battery_replaced K H call utcnow h = (Return tt, h)).
Proof.
  intros Hdev. unfold handle_battery_replaced, bind, get_hass.
  split.
  - destruct (replaced_date_pure (date_entry_of call) utcnow h) as [[date|e] ->];
      [by rewrite Hdev|done].
  - intros [Hf|[d Hd]].
    + rewrite Hf. cbn [ret]. by rewrite Hdev.
    + rewrite Hd. cbn [ret truthy as_utc_naive]. by rewrite Hdev.
Qed.

(** C4.  On a registered device that has a config entry of this
    integration, the date handed to the coordinator is the supplied
    datetime, converted to UTC and made naive, or else the current UTC
    time; the handler makes exactly the calls [replaced_calls]. *)
Theorem battery_replaced_date call utcnow h device eid entry date :
  device_registry_async_get h (device_id_of call) = Some device →
  eid ∈ device_config_entries device →
  hass_config_entries h !! eid = Some entry →
  domain entry = const.DOMAIN K →
  coordinator_ready K h →
  replaced_date H (date_entry_of call) utcnow date →
  handle_battery_replaced K H call utcnow h
  = (Return tt, with_calls h (hass_calls h ++ calls_of call h device date))
  ∧ call_async_update_device_config (device_id_of call)
      {[ lit "battery_last_replaced" := VDatetime date ]} ∈ calls_of call h device date
  ∧ ∀ id data, call_async_update_device_config id data ∈ calls_of call h device date →
      data = {[ lit "battery_last_replaced" := VDatetime date ]}.
Proof.
  intros Hdev Heid Hentry Hdom Hready Hdate. split; [|split].
  - unfold handle_battery_replaced, bind, get_hass.
    assert ((if truthy (date_entry_of call)
             then as_utc_naive H (date_entry_of call)
             else ret utcnow) h = (Return date, h)) as ->.
    { destruct Hdate as [(d & -> & ->)|[-> ->]]; done. }
    rewrite Hdev. rewrite <- (with_calls_id h) at 1.
    by apply for_each_replaced.
  - unfold replaced_calls. apply list_elem_of_In, in_flat_map.
    exists eid. split; [by apply list_elem_of_In|].
    rewrite Hentry, bool_decide_eq_true_2 by done. by left.
  - intros id data Hin. unfold replaced_calls in Hin.
    apply list_elem_of_In, in_flat_map in Hin as (eid' & _ & Hin).
    destruct (hass_config_entries h !! eid') as [entry'|]; [|done].
    destruct (bool_decide (domain entry' = const.DOMAIN K)); [|done].
    destruct Hin as [[= _ <-]|[?|[]]]; done.
Qed.


(** C7.  Updating the options is one call to the host, the reload of the
    same entry; nothing else of [hass] changes. *)
Theorem update_options_reloads entry h :
  async_update_options entry h
  = (Return tt, with_calls h (hass_calls h ++ [call_async_reload (entry_id entry)])).
Proof. reflexivity. Qed.
End ServiceClaims.

(** ** [async_setup] *)

Section SetupFacts.
Context (K : const.t) (H : host.t).

Lemma domain_data_setitem_run h d k o :
  hass_data h !! const.DOMAIN K = Some d →
  domain_data_setitem K k o h
  = (Return tt, with_data h (<[const.DOMAIN K := <[k := o]> d]> (hass_data h))).
Proof. intros Hd. unfold domain_data_setitem, bind, get_hass. by rewrite Hd. Qed.

(** A set-up that passes the version gate, on a valid configuration. *)
Lemma async_setup_run config utcnow h :
  host.awesome_lt H (host.HA_VERSION H) MIN_HA_VERSION = false →
  domain_section_ok K config →
  async_setup K H config utcnow h = (Return true, after_setup K h config utcnow).
Proof.
  intros Hlt [m Hm]. unfold async_setup. rewrite Hlt.
  unfold bind at 1. unfold get_hass at 1.
  unfold bind at 1. unfold set_hass_data at 1.
  unfold bind at 1. unfold emit at 1.
  unfold bind at 1. unfold emit at 1.
  unfold bind at 1.
  erewrite domain_data_setitem_run by apply lookup_insert_eq.
  unfold bind at 1. unfold emit at 1.
  unfold bind at 1. unfold emit at 1.
  unfold bind at 1.
  erewrite domain_data_setitem_run by apply lookup_insert_eq.
  unfold bind at 1. unfold emit at 1.
  unfold bind at 1.
  unfold after_setup, setup_calls, autodiscovery. rewrite Hm.
  cbn [value_get ret].
  destruct (truthy (dict_get m (const.CONF_ENABLE_AUTODISCOVERY K) VNone));
    unfold bind, emit, ret;
    cbn [with_calls with_data hass_data hass_calls hass_config_entries hass_devices];
    rewrite !insert_insert_eq, <- !app_assoc; reflexivity.
Qed.

(** After such a set-up the coordinator is where the other functions of
    the module look for it. *)
Lemma coordinator_ready_after_setup config utcnow h :
  const.DATA_COORDINATOR K ≠ const.DATA_LIBRARY_UPDATER K →
  coordinator_ready K (after_setup K h config utcnow).
Proof.
  intros Hne. eexists. cbn [after_setup hass_data]. split.
  - apply lookup_insert_eq.
  - by rewrite lookup_insert_ne, lookup_insert_eq.
Qed.

Lemma async_setup_gate config utcnow h :
  host.awesome_lt H (host.HA_VERSION H) MIN_HA_VERSION = true →
  async_setup K H config utcnow h = (Return false, h).
Proof. intros Hlt. unfold async_setup. by rewrite Hlt. Qed.

(** C9.  Below the minimum version, [async_setup] returns False and leaves
    [hass] as it is; otherwise it stores the domain's data, starts the
    store, the coordinator and the library updater (and discovery when it
    is enabled) and returns True. *)
Theorem setup_version_gate config utcnow h :
  (host.awesome_lt H (host.HA_VERSION H) MIN_HA_VERSION = true →
   async_setup K H config utcnow h = (Return false, h))
  ∧ (host.awesome_lt H (host.HA_VERSION H) MIN_HA_VERSION = false →
     domain_section_ok K config →
     async_setup K H config utcnow h = (Return true, after_setup K h config utcnow)).
Proof. split; [apply async_setup_gate|apply async_setup_run]. Qed.

Lemma fallback_items :
  fallback_domain_config K
  = <[const.CONF_ENABLE_REPLACED K := VBool true]>
      (<[const.CONF_SHOW_ALL_DEVICES K := VBool false]>
         (<[const.CONF_ENABLE_AUTODISCOVERY K := VBool true]> ∅)).
Proof. reflexivity. Qed.

End SetupFacts.

(** ** Service registrations *)

Section Traces.
Context (P : call → Prop).

Lemma appends_nothing {A} (m : M A) :
  (∀ h, hass_calls (m h).2 = hass_calls h) → appends P m.
Proof. intros Hm h. exists []. by rewrite Hm, app_nil_r. Qed.

Lemma appends_ret {A} (a : A) : appends P (ret a).
Proof. by apply appends_nothing. Qed.

Lemma appends_raise {A} e : appends P (@raise A e).
Proof. by apply appends_nothing. Qed.

Lemma appends_get_hass : appends P get_hass.
Proof. by apply appends_nothing. Qed.

Lemma appends_set_hass_data d : appends P (set_hass_data d).
Proof. by apply appends_nothing. Qed.

Lemma appends_sync_entry e : appends P (sync_entry e).
Proof. by apply appends_nothing. Qed.

Lemma appends_emit c : P c → appends P (emit c).
Proof. intros Hc h. exists [c]. split; [done|]. by constructor. Qed.

Lemma appends_bind {A B} (m : M A) (f : A → M B) :
  appends P m → (∀ a, appends P (f a)) → appends P (bind m f).
Proof.
  intros Hm Hf h. unfold bind. destruct (Hm h) as (cs & Hcs & HP).
  destruct (m h) as [[a|e] h1]; cbn [snd] in *.
  - destruct (Hf a h1) as (cs' & Hcs' & HP').
    exists (cs ++ cs'). rewrite Hcs', Hcs, app_assoc. split; [done|].
    by apply Forall_app.
  - by exists cs.
Qed.

Lemma appends_for_each {A} (l : list A) (body : A → M unit) :
  (∀ x, appends P (body x)) → appends P (for_each l body).
Proof.
  intros Hbody. induction l as [|x l IH]; cbn [for_each].
  - apply appends_ret.
  - apply appends_bind; [apply Hbody|intros _; apply IH].
Qed.
End Traces.

Create HintDb appends.
#[local] Hint Resolve appends_ret appends_raise appends_get_hass
  appends_set_hass_data appends_sync_entry : appends.

Ltac appends_step :=
  first
    [ apply appends_bind; [|intros ?]
    | apply appends_for_each; intros ?
    | apply appends_emit; first [done | discriminate]
    | solve [auto with appends]
    | match goal with
      | |- appends _ (match ?x with _ => _ end) => destruct x
      | |- appends _ (if ?x then _ else _) => destruct x
      | |- appends _ (let '(_, _) := ?x in _) => destruct x
      end ].

Section RegistrationClaim.
Context (K : const.t) (H : host.t).

Local Abbreviation only_the_service :=
  (λ c : call, is_registration c = true → c = battery_replaced_registration K).

Lemma register_services_appends : appends only_the_service (register_services K).
Proof. unfold register_services. by apply appends_emit. Qed.

Lemma domain_data_getitem_appends k : appends only_the_service (domain_data_getitem K k).
Proof. unfold domain_data_getitem. repeat appends_step. Qed.

Lemma domain_data_setitem_appends k o :
  appends only_the_service (domain_data_setitem K k o).
Proof. unfold domain_data_setitem. repeat appends_step. Qed.

Lemma coordinator_method_appends o c :
  is_registration c = false → appends only_the_service (coordinator_method o c).
Proof.
  intros Hc. destruct o; cbn [coordinator_method]; auto with appends.
  apply appends_emit. by rewrite Hc.
Qed.

Lemma run_appends ep : ∀ h, ∃ cs,
  hass_calls (run K H ep h) = hass_calls h ++ cs ∧ Forall only_the_service cs.
Proof.
  assert (∀ k, appends only_the_service (domain_data_getitem K k))
    by apply domain_data_getitem_appends.
  assert (∀ k o, appends only_the_service (domain_data_setitem K k o))
    by apply domain_data_setitem_appends.
  assert (appends only_the_service (register_services K))
    by apply register_services_appends.
  destruct ep as [config utcnow|entry|config_entry|config_entry|entry
                 |entry unloaded| |sc utcnow]; cbn [run].
  - change (appends only_the_service (async_setup K H config utcnow)).
    unfold async_setup, value_get. repeat appends_step.
  - change (appends only_the_service (async_setup_entry K entry)).
    unfold async_setup_entry. repeat appends_step.
  - change (appends only_the_service (async_remove_entry K config_entry)).
    unfold async_remove_entry. repeat appends_step.
    by apply coordinator_method_appends.
  - change (appends only_the_service (async_migrate_entry K H config_entry)).
    unfold async_migrate_entry, dict_getitem, re_search. repeat appends_step.
  - change (appends only_the_service (async_update_options entry)).
    unfold async_update_options. repeat appends_step.
  - change (appends only_the_service (async_unload_entry K entry unloaded)).
    unfold async_unload_entry. repeat appends_step.
  - done.
  - change (appends only_the_service (handle_battery_replaced K H sc utcnow)).
    unfold handle_battery_replaced, as_utc_naive, replaced_for_entry.
    repeat appends_step; by apply coordinator_method_appends.
Qed.

(** C5.  [register_services] makes one registration with the host: the
    service [SERVICE_BATTERY_REPLACED] of [DOMAIN], with its handler and
    [SERVICE_BATTERY_REPLACED_SCHEMA]; and whatever function of the module
    runs, a service registration it makes is this one. *)
Theorem register_services_only h :
  register_services K h
  = (Return tt, with_calls h (hass_calls h ++ [battery_replaced_registration K]))
  ∧ ∀ ep h0, ∃ cs,
      hass_calls (run K H ep h0) = hass_calls h0 ++ cs
      ∧ ∀ c, c ∈ cs → is_registration c = true → c = battery_replaced_registration K.
Proof.
  split; [reflexivity|]. intros ep h0.
  destruct (run_appends ep h0) as (cs & Hcs & HP).
  exists cs. split; [done|]. intros c Hc. by apply (proj1 (Forall_forall _ _) HP c Hc).
Qed.
End RegistrationClaim.

(** ** The claims on concrete inputs *)

Lemma battery_replaced_unknown_device_witness :
  handle_battery_replaced sample_const (sample_host (lit "2023.12.1"))
    call_unknown sample_now hass_with_device
  = (Return tt, hass_with_device).
Proof.
  apply (battery_replaced_unknown_device sample_const (sample_host (lit "2023.12.1"))
           call_unknown sample_now hass_with_device).
  - reflexivity.
  - left. reflexivity.
Defined.

Lemma battery_replaced_date_witness :
  handle_battery_replaced sample_const (sample_host (lit "2023.12.1"))
    call_d1_dated sample_now hass_with_device
  = (Return tt,
     with_calls hass_with_device
       [ call_async_update_device_config (VStr (lit "d1"))
           {[ lit "battery_last_replaced" :=
                VDatetime {| dt_wall := 39600000000; dt_utcoffset := None |} ]};
         call_async_request_refresh ])
  ∧ handle_battery_replaced sample_const (sample_host (lit "2023.12.1"))
      call_d1 sample_now hass_with_device
    = (Return tt,
       with_calls hass_with_device
         [ call_async_update_device_config (VStr (lit "d1"))
             {[ lit "battery_last_replaced" := VDatetime sample_now ]};
           call_async_request_refresh ]).
Proof.
  split.
  - refine (proj1 (battery_replaced_date sample_const (sample_host (lit "2023.12.1"))
             call_d1_dated sample_now hass_with_device
             {| device_config_entries := [lit "e0"; lit "e1"] |} (lit "e1")
             {| entry_id := lit "e1"; version := 2; domain := lit "battery_notes";
                title := lit "Remote";
                data := {[ lit "device_id" := VStr (lit "d1") ]} |}
             {| dt_wall := 39600000000; dt_utcoffset := None |} _ _ _ _ _ _)).
    + reflexivity.
    + apply elem_of_cons. right. apply elem_of_cons. left. reflexivity.
    + reflexivity.
    + reflexivity.
    + eexists. split; reflexivity.
    + left. eexists. split; reflexivity.
  - refine (proj1 (battery_replaced_date sample_const (sample_host (lit "2023.12.1"))
             call_d1 sample_now hass_with_device
             {| device_config_entries := [lit "e0"; lit "e1"] |} (lit "e1")
             {| entry_id := lit "e1"; version := 2; domain := lit "battery_notes";
                title := lit "Remote";
                data := {[ lit "device_id" := VStr (lit "d1") ]} |}
             sample_now _ _ _ _ _ _)).
    + reflexivity.
    + apply elem_of_cons. right. apply elem_of_cons. left. reflexivity.
    + reflexivity.
    + reflexivity.
    + eexists. split; reflexivity.
    + right. split; reflexivity.
Defined.


Lemma setup_version_gate_witness :
  async_setup sample_const (sample_host (lit "2023.6.3")) ∅ sample_now hass0
  = (Return false, hass0)
  ∧ async_setup sample_const (sample_host (lit "2023.12.1")) ∅ sample_now hass0
    = (Return true,
       after_setup sample_const hass0 ∅ sample_now).
Proof.
  split.
  - apply (setup_version_gate sample_const (sample_host (lit "2023.6.3"))).
    reflexivity.
  - apply (setup_version_gate sample_const (sample_host (lit "2023.12.1"))).
    + reflexivity.
    + eexists. reflexivity.
Defined.


(** ** The migration on concrete entries *)

Example migrate_2x_AA :
  (async_migrate_entry sample_const (sample_host (lit "2023.12.1"))
     (entry_with_type 1 (lit "2x AA")) hass0).1
  = Return (true, migrated sample_const (entry_with_type 1 (lit "2x AA"))
                    (VStr (lit "2")) (VStr (lit "AA"))).
Proof. vm_compute. reflexivity. Qed.

Example migrate_CR2032 :
  (async_migrate_entry sample_const (sample_host (lit "2023.12.1"))
     (entry_with_type 1 (lit "CR2032")) hass0).1
  = Return (true, migrated sample_const (entry_with_type 1 (lit "CR2032"))
                    (VStr (lit "1")) (VStr (lit "CR2032"))).
Proof. vm_compute. reflexivity. Qed.

Example migrate_two_words :
  (async_migrate_entry sample_const (sample_host (lit "2023.12.1"))
     (entry_with_type 1 (lit "4x AA Rechargeable")) hass0).1
  = Return (true, migrated sample_const (entry_with_type 1 (lit "4x AA Rechargeable"))
                    (VStr (lit "1")) (VStr (lit "4x AA Rechargeable"))).
Proof. vm_compute. reflexivity. Qed.

Example migrate_empty :
  (async_migrate_entry sample_const (sample_host (lit "2023.12.1"))
     (entry_with_type 1 (lit "")) hass0).1
  = Return (true, migrated sample_const (entry_with_type 1 (lit ""))
                    (VInt 1) (VStr (lit ""))).
Proof. vm_compute. reflexivity. Qed.

Example sample_lt_versions :
  sample_lt (lit "2023.6.3") MIN_HA_VERSION = true
  ∧ sample_lt (lit "2023.7") MIN_HA_VERSION = false
  ∧ sample_lt (lit "2023.12.1") MIN_HA_VERSION = false.
Proof. repeat split. Qed.

(** * More of the module *)

Section MigrateMore.
Context (K : const.t) (H : host.t).
Local Abbreviation db := (host.unicode H).

(** X1.  The migration of a version-1 entry changes nothing but the
    version, the battery type and the battery quantity: id, domain, title
    and every other key of the data stay; [hass] gets the one call to
    [async_update_entry], with the new data. *)
Theorem migrate_keeps_the_rest e h s :
  version e = 1%Z →
  data e !! const.CONF_BATTERY_TYPE K = Some (VStr s) →
  ∃ e' h',
    async_migrate_entry K H e h = (Return (true, e'), h')
    ∧ entry_id e' = entry_id e ∧ domain e' = domain e ∧ title e' = title e
    ∧ version e' = const.CONFIG_VERSION K
    ∧ (∀ k, k ≠ const.CONF_BATTERY_TYPE K → k ≠ const.CONF_BATTERY_QUANTITY K →
         data e' !! k = data e !! k)
    ∧ hass_calls h' =
        hass_calls h ++ [call_async_update_entry (entry_id e) (title e) (data e')]
    ∧ hass_data h' = hass_data h ∧ hass_devices h' = hass_devices h.
Proof.
  intros Hv Ht.
  destruct (async_migrate_entry_v1 K H e h s Hv Ht) as (qty & type & _ & Hrun).
  eexists _, _. split; [exact Hrun|]. cbn.
  repeat split. intros k Hk1 Hk2. by rewrite !lookup_insert_ne.
Qed.

(** X2.  Migrating twice is migrating once: with [CONFIG_VERSION] other
    than 1, the migrated entry and the [hass] it leaves are not changed by
    a second migration. *)
Theorem migrate_twice e h s :
  version e = 1%Z →
  data e !! const.CONF_BATTERY_TYPE K = Some (VStr s) →
  const.CONFIG_VERSION K ≠ 1%Z →
  ∃ e' h',
    async_migrate_entry K H e h = (Return (true, e'), h')
    ∧ async_migrate_entry K H e' h' = (Return (true, e'), h').
Proof.
  intros Hv Ht Hcv.
  destruct (async_migrate_entry_v1 K H e h s Hv Ht) as (qty & type & _ & Hrun).
  eexists _, _. split; [exact Hrun|].
  unfold async_migrate_entry at 1. cbn [version migrated].
  by destruct (Z.eqb_spec (const.CONFIG_VERSION K) 1).
Qed.


(** X4.  A version-1 entry without the battery type key raises [KeyError],
    one whose battery type is not a string raises [TypeError]; in both
    cases nothing was changed yet: [hass] is as before. *)
Theorem migrate_fails_before_any_change e h :
  version e = 1%Z →
  (data e !! const.CONF_BATTERY_TYPE K = None →
   async_migrate_entry K H e h = (Raise KeyError, h))
  ∧ (∀ v, data e !! const.CONF_BATTERY_TYPE K = Some v →
          (∀ s, v ≠ VStr s) →
          async_migrate_entry K H e h = (Raise TypeError, h)).
Proof.
  intros Hv. unfold async_migrate_entry. rewrite Hv. cbn [Z.eqb Pos.eqb].
  unfold dict_getitem, bind. split.
  - by intros ->.
  - intros v -> Hns. destruct v; try done. by destruct (Hns s).
Qed.
End MigrateMore.
Section MigrateValues.
Context (K : const.t) (H : host.t).
Local Abbreviation db := (host.unicode H).

(** The quantity and type the source computes, classified. *)
Lemma migrate_pair_cases s qty type :
  (qty, type) =
    match Re.search (migrate_pattern H) s with
    | Some m =>
        (match Re.group m 1 with Some g => VStr g | None => VStr (lit "1") end,
         match Re.group m 2 with
         | Some g => VStr g
         | None => group_value (Re.group m 3)
         end)
    | None => (VInt 1, VStr s)
    end →
  (s = [] ∧ qty = VInt 1 ∧ type = VStr s)
  ∨ (∃ ds ws, shape_upto_newline db s ds ws ∧ qty = VStr ds ∧ type = VStr ws)
  ∨ (s ≠ [] ∧ ¬ (∃ ds ws, shape_upto_newline db s ds ws)
     ∧ qty = VStr (lit "1") ∧ type = VStr s).
Proof.
  intros Hqt. destruct s as [|c s'] eqn:Es.
  - left. rewrite search_migrate_pattern_empty in Hqt. by injection Hqt as -> ->.
  - right. rewrite <- Es in *. assert (s ≠ []) as Hne by (by rewrite Es).
    clear Es. destruct (shape_upto_newline_dec H s) as [(ds & ws & Hs)|Hno].
    + left. destruct (search_migrate_pattern_shape H s ds ws Hs) as (m & Hm & H1 & H2).
      rewrite Hm, H1, H2 in Hqt. injection Hqt as -> ->. eauto.
    + right. destruct (search_migrate_pattern_other H s Hne Hno) as (m & Hm & H1 & H2 & H3).
      rewrite Hm, H1, H2, H3 in Hqt. by injection Hqt as -> ->.
Qed.

(** X5.  What the migration stores is well formed: the type is always a
    string (never [None]) and is empty only when the old string was; the
    quantity is the integer 1 on the empty string and otherwise a
    non-empty string of digits. *)
Theorem migrated_values_well_formed e h s :
  version e = 1%Z →
  data e !! const.CONF_BATTERY_TYPE K = Some (VStr s) →
  const.CONF_BATTERY_TYPE K ≠ const.CONF_BATTERY_QUANTITY K →
  ∃ e' h' t,
    async_migrate_entry K H e h = (Return (true, e'), h')
    ∧ data e' !! const.CONF_BATTERY_TYPE K = Some (VStr t)
    ∧ (s ≠ [] → t ≠ [])
    ∧ ((s = [] ∧ data e' !! const.CONF_BATTERY_QUANTITY K = Some (VInt 1))
       ∨ (s ≠ [] ∧ ∃ q, data e' !! const.CONF_BATTERY_QUANTITY K = Some (VStr q)
                        ∧ q ≠ [] ∧ forallb (Re.is_digit db) q = true)).
Proof.
  intros Hv Ht Hkeys.
  destruct (async_migrate_entry_v1 K H e h s Hv Ht) as (qty & type & Hqt & Hrun).
  apply migrate_pair_cases in Hqt
    as [(-> & -> & ->)|[(ds & ws & Hs & -> & ->)|(Hne & _ & -> & ->)]].
  - eexists _, _, _. split; [exact Hrun|]. cbn [migrated data].
    rewrite lookup_insert_eq, lookup_insert_ne, lookup_insert_eq by done.
    split; [done|]. split; [done|]. by left.
  - assert (s ≠ [] ∧ ds ≠ [] ∧ ws ≠ [] ∧ forallb (Re.is_digit db) ds = true)
      as (Hne & Hds & Hws & Hdig).
    { destruct Hs as [(w & -> & ? & ? & _ & ? & _)|(w & -> & ? & ? & _ & ? & _)];
        repeat split; try done; by destruct ds. }
    eexists _, _, _. split; [exact Hrun|]. cbn [migrated data].
    rewrite lookup_insert_eq, lookup_insert_ne, lookup_insert_eq by done.
    split; [done|]. split; [done|]. right. eauto.
  - eexists _, _, _. split; [exact Hrun|]. cbn [migrated data].
    rewrite lookup_insert_eq, lookup_insert_ne, lookup_insert_eq by done.
    split; [done|]. split; [done|]. right. split; [done|].
    exists (lit "1"). by repeat split.
Qed.

(** X6.  The split loses only the separator: when the migrated type is
    not the old string, the old string was the migrated quantity, an 'x',
    one whitespace character and the migrated type (and at most one final
    newline). *)
Theorem migrate_split_rebuilds e h s e' h' t :
  version e = 1%Z →
  data e !! const.CONF_BATTERY_TYPE K = Some (VStr s) →
  const.CONF_BATTERY_TYPE K ≠ const.CONF_BATTERY_QUANTITY K →
  async_migrate_entry K H e h = (Return (true, e'), h') →
  data e' !! const.CONF_BATTERY_TYPE K = Some (VStr t) →
  t ≠ s →
  ∃ q, data e' !! const.CONF_BATTERY_QUANTITY K = Some (VStr q)
       ∧ shape_upto_newline db s q t.
Proof.
  intros Hv Ht Hkeys Hrun Ht' Hts.
  destruct (async_migrate_entry_v1 K H e h s Hv Ht) as (qty & type & Hqt & Hrun').
  rewrite Hrun' in Hrun. injection Hrun as <- <-. cbn [migrated data] in *.
  rewrite lookup_insert_eq. rewrite lookup_insert_ne, lookup_insert_eq in Ht' by done.
  injection Ht' as ->.
  apply migrate_pair_cases in Hqt
    as [(_ & _ & [= ->])|[(ds & ws & Hs & -> & [= ->])|(_ & _ & _ & [= ->])]];
    try done.
  by exists ds.
Qed.

(** X7.  A battery type without an 'x' in it, or one that does not begin
    with a digit, is never split: the quantity becomes '1' and the type
    stays. *)
Theorem migrate_keeps_plain_types e h s :
  version e = 1%Z →
  data e !! const.CONF_BATTERY_TYPE K = Some (VStr s) →
  s ≠ [] →
  120 ∉ s ∨ (∀ c, head s = Some c → Re.is_digit db c = false) →
  async_migrate_entry K H e h
  = (Return (true, migrated K e (VStr (lit "1")) (VStr s)),
     after_migration h e (migrated K e (VStr (lit "1")) (VStr s))).
Proof.
  intros Hv Ht Hne Hplain.
  destruct (async_migrate_entry_v1 K H e h s Hv Ht) as (qty & type & Hqt & Hrun).
  apply migrate_pair_cases in Hqt
    as [(-> & _)|[(ds & ws & Hs & _)|(_ & _ & -> & ->)]]; [done| |done].
  exfalso.
  assert (∃ w tail, s = ds ++ 120 :: w :: ws ++ tail ∧ ds ≠ []
                    ∧ forallb (Re.is_digit db) ds = true)
    as (w & tail & -> & Hds & Hdig).
  { destruct Hs as [(w & ? & ? & ? & _)|(w & ? & ? & ? & _)]; eauto 10. }
  destruct Hplain as [Hx|Hhead].
  - apply Hx. apply elem_of_app. right. by left.
  - destruct ds as [|d ds]; [done|]. cbn in Hdig, Hhead.
    apply andb_prop in Hdig as [Hd _]. by rewrite (Hhead d eq_refl) in Hd.
Qed.
End MigrateValues.
Section Frames.
Context {X : Type} (f : HomeAssistant → X).

Lemma keeps_ret {A} (a : A) : keeps f (ret a).
Proof. by intros h. Qed.

Lemma keeps_raise {A} e : keeps f (@raise A e).
Proof. by intros h. Qed.

Lemma keeps_get_hass : keeps f get_hass.
Proof. by intros h. Qed.

Lemma keeps_emit c : (∀ h cs, f (with_calls h cs) = f h) → keeps f (emit c).
Proof. intros Hf h. apply Hf. Qed.

Lemma keeps_set_hass_data d : (∀ h d, f (with_data h d) = f h) → keeps f (set_hass_data d).
Proof. intros Hf h. apply Hf. Qed.

Lemma keeps_sync_entry e :
  (∀ h es, f (with_config_entries h es) = f h) → keeps f (sync_entry e).
Proof. intros Hf h. apply Hf. Qed.

Lemma keeps_bind {A B} (m : M A) (k : A → M B) :
  keeps f m → (∀ a, keeps f (k a)) → keeps f (bind m k).
Proof.
  intros Hm Hk h. unfold bind. specialize (Hm h).
  destruct (m h) as [[a|e] h1]; cbn [snd] in *; [|done].
  by rewrite Hk.
Qed.

Lemma keeps_for_each {A} (l : list A) (body : A → M unit) :
  (∀ x, keeps f (body x)) → keeps f (for_each l body).
Proof.
  intros Hbody. induction l as [|x l IH]; cbn [for_each].
  - apply keeps_ret.
  - apply keeps_bind; [apply Hbody|intros _; apply IH].
Qed.
End Frames.

Ltac keeps_step :=
  first
    [ apply keeps_bind; [|intros ?]
    | apply keeps_for_each; intros ?
    | apply keeps_ret
    | apply keeps_raise
    | apply keeps_get_hass
    | apply keeps_emit; reflexivity
    | apply keeps_set_hass_data; reflexivity
    | apply keeps_sync_entry; reflexivity
    | match goal with
      | |- keeps _ (match ?x with _ => _ end) => destruct x
      | |- keeps _ (if ?x then _ else _) => destruct x
      | |- keeps _ (let '(_, _) := ?x in _) => destruct x
      end ].

Ltac keeps_unfold :=
  unfold async_setup, async_setup_entry, async_remove_entry, async_migrate_entry,
    async_update_options, async_unload_entry, register_services,
    handle_battery_replaced, replaced_for_entry, as_utc_naive, coordinator_method,
    domain_data_getitem, domain_data_setitem, dict_getitem, re_search, value_get.

Section ModuleFrame.
Context (K : const.t) (H : host.t).

(** X8.  What the module never writes: no function touches the device
    registry; only [async_setup] writes [hass.data]; only
    [async_migrate_entry] changes a config entry of the registry.  This
    holds whether the function returns or raises. *)
Theorem module_frame ep h :
  hass_devices (run K H ep h) = hass_devices h
  ∧ (is_setup ep = false → hass_data (run K H ep h) = hass_data h)
  ∧ (is_migrate ep = false →
     hass_config_entries (run K H ep h) = hass_config_entries h).
Proof.
  split; [|split].
  - revert h.
    destruct ep as [config utcnow|entry|config_entry|config_entry|entry
                   |entry unloaded| |sc utcnow]; cbn [run];
      match goal with |- ∀ h, _ (?m h).2 = _ => change (keeps hass_devices m) end;
      keeps_unfold; repeat keeps_step.
  - intros Hep. revert h.
    destruct ep as [config utcnow|entry|config_entry|config_entry|entry
                   |entry unloaded| |sc utcnow]; try discriminate Hep; cbn [run];
      match goal with |- ∀ h, _ (?m h).2 = _ => change (keeps hass_data m) end;
      keeps_unfold; repeat keeps_step.
  - intros Hep. revert h.
    destruct ep as [config utcnow|entry|config_entry|config_entry|entry
                   |entry unloaded| |sc utcnow]; try discriminate Hep; cbn [run];
      match goal with |- ∀ h, _ (?m h).2 = _ => change (keeps hass_config_entries m) end;
      keeps_unfold; repeat keeps_step.
Qed.
End ModuleFrame.
Section BeforeSetup.
Context (K : const.t) (H : host.t).

Local Abbreviation device_id_of call :=
  (dict_get (call_data call) (const.ATTR_DEVICE_ID K) (VStr (lit ""))).
Local Abbreviation date_entry_of call :=
  (dict_get (call_data call) (const.ATTR_DATE_TIME_REPLACED K) VNone).
Local Abbreviation date_ok call :=
  (truthy (date_entry_of call) = false ∨ ∃ d, date_entry_of call = VDatetime d).

Lemma coordinator_missing_getitem h :
  coordinator_missing K h →
  domain_data_getitem K (const.DATA_COORDINATOR K) h = (Raise KeyError, h).
Proof.
  unfold coordinator_missing, domain_data_getitem, bind, get_hass.
  destruct (hass_data h !! const.DOMAIN K) as [d|]; [|done]. by intros ->.
Qed.

(** The handler's date, when the attribute is absent, falsy or a datetime. *)
Lemma replaced_date_ok call utcnow h :
  date_ok call →
  ∃ date, (if truthy (date_entry_of call)
           then as_utc_naive H (date_entry_of call)
           else ret utcnow) h = (Return date, h).
Proof. intros [->|[d ->]]; by eexists. Qed.

(** The loop over config entries none of which is of this integration. *)
Lemma for_each_foreign h device_id date entries :
  (∀ eid entry, eid ∈ entries → hass_config_entries h !! eid = Some entry →
                domain entry ≠ const.DOMAIN K) →
  for_each entries (replaced_for_entry K device_id date) h = (Return tt, h).
Proof.
  induction entries as [|eid entries IH]; intros Hforeign; cbn [for_each]; [done|].
  unfold bind at 1. unfold replaced_for_entry at 1. unfold bind at 1, get_hass at 1.
  destruct (hass_config_entries h !! eid) as [entry|] eqn:He.
  - rewrite bool_decide_eq_false_2
      by (apply (Hforeign eid entry); [by left|done]).
    apply IH. intros eid' entry' Hin. apply Hforeign. by right.
  - apply IH. intros eid' entry' Hin. apply Hforeign. by right.
Qed.

(** The loop when the coordinator is missing and one of the entries is of
    this integration. *)
Lemma for_each_missing h device_id date entries eid entry :
  coordinator_missing K h →
  eid ∈ entries → hass_config_entries h !! eid = Some entry →
  domain entry = const.DOMAIN K →
  for_each entries (replaced_for_entry K device_id date) h = (Raise KeyError, h).
Proof.
  intros Hmiss Hin He Hdom.
  induction entries as [|eid' entries IH]; [by apply elem_of_nil in Hin|].
  cbn [for_each].
  unfold bind at 1. unfold replaced_for_entry at 1. unfold bind at 1, get_hass at 1.
  destruct (hass_config_entries h !! eid') as [entry'|] eqn:He'.
  - destruct (bool_decide (domain entry' = const.DOMAIN K)) eqn:Hd.
    + unfold bind. by rewrite coordinator_missing_getitem.
    + apply IH. apply elem_of_cons in Hin as [->|Hin]; [|done].
      rewrite He in He'. injection He' as <-.
      by rewrite bool_decide_eq_true_2 in Hd.
  - apply IH. apply elem_of_cons in Hin as [->|Hin]; [|done]. congruence.
Qed.

(** X9.  A registered device none of whose config entries belongs to this
    integration (entries of other domains, or ids the registry does not
    know): the handler does nothing and returns; it does not even need the
    coordinator. *)
Theorem battery_replaced_foreign_device call utcnow h device :
  device_registry_async_get h (device_id_of call) = Some device →
  (∀ eid entry, eid ∈ device_config_entries device →
                hass_config_entries h !! eid = Some entry →
                domain entry ≠ const.DOMAIN K) →
  date_ok call →
  handle_battery_replaced K H call utcnow h = (Return tt, h).
Proof.
  intros Hdev Hforeign Hdate. unfold handle_battery_replaced, bind, get_hass.
  destruct (replaced_date_ok call utcnow h Hdate) as [date ->].
  rewrite Hdev. by apply for_each_foreign.
Qed.

(** X10.  Before the integration is set up (no coordinator under
    [hass.data[DOMAIN]]), a call for a device that has a config entry of
    this integration raises [KeyError]; no call was made, [hass] is as
    before. *)
Theorem battery_replaced_before_setup call utcnow h device eid entry :
  device_registry_async_get h (device_id_of call) = Some device →
  eid ∈ device_config_entries device →
  hass_config_entries h !! eid = Some entry →
  domain entry = const.DOMAIN K →
  coordinator_missing K h →
  date_ok call →
  handle_battery_replaced K H call utcnow h = (Raise KeyError, h).
Proof.
  intros Hdev Hin He Hdom Hmiss Hdate. unfold handle_battery_replaced, bind, get_hass.
  destruct (replaced_date_ok call utcnow h Hdate) as [date ->].
  rewrite Hdev. by eapply for_each_missing.
Qed.

(** X11.  Before the integration is set up, removing an entry that has a
    'device_id' raises [KeyError] and leaves [hass] as it is. *)
Theorem remove_entry_before_setup config_entry h :
  is_Some (data config_entry !! lit "device_id") →
  coordinator_missing K h →
  async_remove_entry K config_entry h = (Raise KeyError, h).
Proof.
  intros [device_id Hid] Hmiss. unfold async_remove_entry, bind.
  by rewrite Hid, coordinator_missing_getitem.
Qed.
End BeforeSetup.
Section SetupMore.
Context (K : const.t) (H : host.t).

Local Abbreviation gate_open :=
  (host.awesome_lt H (host.HA_VERSION H) MIN_HA_VERSION = false).

(** X12.  What a set-up leaves in [hass.data]: under [DOMAIN] exactly the
    effective configuration, the coordinator and the library updater,
    whatever was there before; every other domain's data is untouched. *)
Theorem setup_domain_data config utcnow h :
  gate_open → domain_section_ok K config →
  NoDup [ const.DOMAIN_CONFIG K; const.DATA_COORDINATOR K; const.DATA_LIBRARY_UPDATER K ] →
  ∃ h' d,
    async_setup K H config utcnow h = (Return true, h')
    ∧ hass_data h' !! const.DOMAIN K = Some d
    ∧ d !! const.DOMAIN_CONFIG K = Some (OValue (domain_config_of K config))
    ∧ d !! const.DATA_COORDINATOR K = Some OCoordinator
    ∧ d !! const.DATA_LIBRARY_UPDATER K = Some OLibraryUpdater
    ∧ (∀ k, is_Some (d !! k) →
         k = const.DOMAIN_CONFIG K ∨ k = const.DATA_COORDINATOR K
         ∨ k = const.DATA_LIBRARY_UPDATER K)
    ∧ (∀ k, k ≠ const.DOMAIN K → hass_data h' !! k = hass_data h !! k).
Proof.
  intros Hgate Hok Hnd.
  apply NoDup_cons in Hnd as [Hc Hnd]. apply NoDup_cons in Hnd as [Hl _].
  assert (const.DOMAIN_CONFIG K ≠ const.DATA_COORDINATOR K) by set_solver.
  assert (const.DOMAIN_CONFIG K ≠ const.DATA_LIBRARY_UPDATER K) by set_solver.
  assert (const.DATA_COORDINATOR K ≠ const.DATA_LIBRARY_UPDATER K) by set_solver.
  eexists _, _. split; [by apply async_setup_run|].
  cbn [after_setup hass_data]. split; [apply lookup_insert_eq|].
  split; [by rewrite lookup_insert_ne, lookup_insert_ne, lookup_singleton_eq|].
  split; [by rewrite lookup_insert_ne, lookup_insert_eq|].
  split; [by rewrite lookup_insert_eq|].
  split.
  - intros k [o Ho]. rewrite !lookup_insert in Ho.
    repeat case_decide; subst; eauto.
    rewrite lookup_singleton in Ho. case_decide; subst; eauto. done.
  - intros k Hk. by rewrite lookup_insert_ne.
Qed.

(** X13.  A set-up does not build on an earlier one: after two set-ups
    [hass.data] is what the second alone would have left, and the trace
    holds the calls of both, in order. *)
Theorem setup_twice config1 t1 config2 t2 h :
  gate_open → domain_section_ok K config1 → domain_section_ok K config2 →
  ∃ h1 h2 h2',
    async_setup K H config1 t1 h = (Return true, h1)
    ∧ async_setup K H config2 t2 h1 = (Return true, h2)
    ∧ async_setup K H config2 t2 h = (Return true, h2')
    ∧ hass_data h2 = hass_data h2'
    ∧ hass_calls h2 = hass_calls h ++ setup_calls K config1 t1 ++ setup_calls K config2 t2.
Proof.
  intros Hgate Hok1 Hok2. eexists _, _, _.
  split; [by apply async_setup_run|]. split; [by apply async_setup_run|].
  split; [by apply async_setup_run|]. cbn [after_setup hass_data hass_calls].
  split; [by rewrite insert_insert_eq|by rewrite app_assoc].
Qed.

(** X14.  Set-up, then use: after a set-up the coordinator is found, so
    removing an entry with a 'device_id' makes its one call, and a "battery
    replaced" call returns with the calls for the device's entries. *)
Theorem setup_then_use config utcnow h :
  gate_open → domain_section_ok K config →
  const.DATA_COORDINATOR K ≠ const.DATA_LIBRARY_UPDATER K →
  ∃ h1,
    async_setup K H config utcnow h = (Return true, h1)
    ∧ (∀ config_entry device_id,
         data config_entry !! lit "device_id" = Some device_id →
         async_remove_entry K config_entry h1
         = (Return tt,
            with_calls h1
              (hass_calls h1 ++
                 [ call_async_update_device_config device_id
                     {[ const.ATTR_REMOVE K := VBool true ]} ])))
    ∧ (∀ call now device date,
         device_registry_async_get h
           (dict_get (call_data call) (const.ATTR_DEVICE_ID K) (VStr (lit "")))
         = Some device →
         replaced_date H
           (dict_get (call_data call) (const.ATTR_DATE_TIME_REPLACED K) VNone)
           now date →
         handle_battery_replaced K H call now h1
         = (Return tt,
            with_calls h1
              (hass_calls h1 ++
                 replaced_calls K h
                   (dict_get (call_data call) (const.ATTR_DEVICE_ID K) (VStr (lit "")))
                   date (device_config_entries device)))).
Proof.
  intros Hgate Hok Hne. eexists. split; [by apply async_setup_run|].
  pose proof (coordinator_ready_after_setup K config utcnow h Hne) as Hready.
  split.
  - intros config_entry device_id Hid. unfold async_remove_entry, bind.
    by rewrite Hid, coordinator_ready_getitem.
  - intros call now device date Hdev Hdate.
    unfold handle_battery_replaced, bind, get_hass.
    match goal with
    | |- context [(if ?b then ?x else ?y) ?h1] =>
        assert ((if b then x else y) h1 = (Return date, h1)) as ->
          by (destruct Hdate as [(d & -> & ->)|[-> ->]]; done)
    end.
    change (device_registry_async_get (after_setup K h config utcnow))
      with (device_registry_async_get h).
    rewrite Hdev.
    rewrite <- (with_calls_id (after_setup K h config utcnow)) at 1.
    by rewrite (for_each_replaced K _ _ _ _ _ Hready).
Qed.

(** X15.  The fallback configuration is the schema's defaults without the
    user-library key: the two agree on every other key. *)
Theorem fallback_is_schema_defaults_less_user_library :
  NoDup [ const.CONF_ENABLE_AUTODISCOVERY K; const.CONF_USER_LIBRARY K;
          const.CONF_SHOW_ALL_DEVICES K; const.CONF_ENABLE_REPLACED K ] →
  fallback_domain_config K
  = delete (const.CONF_USER_LIBRARY K) (schema_defaults (CONFIG_SCHEMA K)).
Proof.
  intros Hnd.
  apply NoDup_cons in Hnd as [Ha Hnd]. apply NoDup_cons in Hnd as [Hu Hnd].
  apply NoDup_cons in Hnd as [Hs _].
  assert (const.CONF_ENABLE_AUTODISCOVERY K ≠ const.CONF_USER_LIBRARY K) by set_solver.
  assert (const.CONF_ENABLE_AUTODISCOVERY K ≠ const.CONF_SHOW_ALL_DEVICES K) by set_solver.
  assert (const.CONF_ENABLE_AUTODISCOVERY K ≠ const.CONF_ENABLE_REPLACED K) by set_solver.
  assert (const.CONF_USER_LIBRARY K ≠ const.CONF_SHOW_ALL_DEVICES K) by set_solver.
  assert (const.CONF_USER_LIBRARY K ≠ const.CONF_ENABLE_REPLACED K) by set_solver.
  assert (const.CONF_SHOW_ALL_DEVICES K ≠ const.CONF_ENABLE_REPLACED K) by set_solver.
  rewrite fallback_items. cbn [schema_defaults CONFIG_SCHEMA].
  apply map_eq. intros k.
  rewrite lookup_delete, !lookup_insert, lookup_empty.
  repeat case_decide; subst; congruence.
Qed.
End SetupMore.
(** ** The further properties on concrete inputs *)

Lemma migrate_keeps_the_rest_witness :
  ∃ e' h',
    async_migrate_entry sample_const (sample_host (lit "2023.12.1"))
      entry_v1_registered hass_with_device = (Return (true, e'), h')
    ∧ version e' = 2%Z
    ∧ data e' !! lit "device_id" = Some (VStr (lit "d1")).
Proof.
  destruct (migrate_keeps_the_rest sample_const (sample_host (lit "2023.12.1"))
              entry_v1_registered hass_with_device (lit "3x AAA"))
    as (e' & h' & Hrun & _ & _ & _ & Hv & Hrest & _).
  - reflexivity.
  - reflexivity.
  - exists e', h'. split; [exact Hrun|]. split; [exact Hv|].
    rewrite Hrest; [reflexivity|discriminate|discriminate].
Defined.

Lemma migrate_twice_witness :
  ∃ e' h',
    async_migrate_entry sample_const (sample_host (lit "2023.12.1"))
      entry_v1_registered hass_with_device = (Return (true, e'), h')
    ∧ async_migrate_entry sample_const (sample_host (lit "2023.12.1")) e' h'
      = (Return (true, e'), h').
Proof.
  apply (migrate_twice sample_const (sample_host (lit "2023.12.1"))
           entry_v1_registered hass_with_device (lit "3x AAA")).
  - reflexivity.
  - reflexivity.
  - discriminate.
Defined.


Lemma migrate_fails_before_any_change_witness :
  async_migrate_entry sample_const (sample_host (lit "2023.12.1"))
    entry_without_type hass_with_device = (Raise KeyError, hass_with_device)
  ∧ async_migrate_entry sample_const (sample_host (lit "2023.12.1"))
      {| entry_id := lit "e1"; version := 1; domain := lit "battery_notes";
         title := lit "Remote"; data := {[ lit "battery_type" := VInt 2 ]} |}
      hass_with_device = (Raise TypeError, hass_with_device).
Proof.
  split.
  - apply (migrate_fails_before_any_change sample_const (sample_host (lit "2023.12.1"))
             entry_without_type hass_with_device); reflexivity.
  - refine (proj2 (migrate_fails_before_any_change sample_const
                     (sample_host (lit "2023.12.1")) _ hass_with_device _)
              (VInt 2) _ _).
    + reflexivity.
    + reflexivity.
    + discriminate.
Defined.

Lemma migrated_values_well_formed_witness :
  ∃ e' h' t,
    async_migrate_entry sample_const (sample_host (lit "2023.12.1"))
      (entry_with_type 1 (lit "2x AA")) hass0 = (Return (true, e'), h')
    ∧ data e' !! lit "battery_type" = Some (VStr t) ∧ t ≠ [].
Proof.
  destruct (migrated_values_well_formed sample_const (sample_host (lit "2023.12.1"))
              (entry_with_type 1 (lit "2x AA")) hass0 (lit "2x AA"))
    as (e' & h' & t & Hrun & Ht & Hne & _).
  - reflexivity.
  - reflexivity.
  - discriminate.
  - exists e', h', t. split; [exact Hrun|]. split; [exact Ht|].
    apply Hne. discriminate.
Defined.

Lemma migrate_split_rebuilds_witness :
  ∃ q, shape_upto_newline Re.ascii_db (lit "2x AA") q (lit "AA").
Proof.
  destruct (migrate_split_rebuilds sample_const (sample_host (lit "2023.12.1"))
              (entry_with_type 1 (lit "2x AA")) hass0 (lit "2x AA")
              (migrated sample_const (entry_with_type 1 (lit "2x AA"))
                 (VStr (lit "2")) (VStr (lit "AA")))
              (after_migration hass0 (entry_with_type 1 (lit "2x AA"))
                 (migrated sample_const (entry_with_type 1 (lit "2x AA"))
                    (VStr (lit "2")) (VStr (lit "AA"))))
              (lit "AA"))
    as (q & _ & Hshape).
  - reflexivity.
  - reflexivity.
  - discriminate.
  - vm_compute. reflexivity.
  - reflexivity.
  - discriminate.
  - exists q. exact Hshape.
Defined.

Lemma migrate_keeps_plain_types_witness :
  async_migrate_entry sample_const (sample_host (lit "2023.12.1"))
    (entry_with_type 1 (lit "CR2032")) hass0
  = (Return (true, migrated sample_const (entry_with_type 1 (lit "CR2032"))
                     (VStr (lit "1")) (VStr (lit "CR2032"))),
     after_migration hass0 (entry_with_type 1 (lit "CR2032"))
       (migrated sample_const (entry_with_type 1 (lit "CR2032"))
          (VStr (lit "1")) (VStr (lit "CR2032")))).
Proof.
  apply (migrate_keeps_plain_types sample_const (sample_host (lit "2023.12.1"))
           (entry_with_type 1 (lit "CR2032")) hass0 (lit "CR2032")).
  - reflexivity.
  - reflexivity.
  - discriminate.
  - right. intros c Hc. injection Hc as <-. reflexivity.
Defined.

Lemma battery_replaced_foreign_device_witness :
  handle_battery_replaced sample_const (sample_host (lit "2023.12.1"))
    call_d2 sample_now hass_foreign_device = (Return tt, hass_foreign_device).
Proof.
  apply (battery_replaced_foreign_device sample_const (sample_host (lit "2023.12.1"))
           call_d2 sample_now hass_foreign_device
           {| device_config_entries := [lit "e0"; lit "e7"] |}).
  - reflexivity.
  - intros eid entry Hin.
    apply elem_of_cons in Hin as [->|Hin].
    + intros Hl. vm_compute in Hl. injection Hl as <-. discriminate.
    + apply list_elem_of_singleton in Hin as ->. intros Hl. vm_compute in Hl.
      discriminate Hl.
  - left. reflexivity.
Defined.

Lemma battery_replaced_before_setup_witness :
  handle_battery_replaced sample_const (sample_host (lit "2023.12.1"))
    call_d1 sample_now hass_not_set_up = (Raise KeyError, hass_not_set_up).
Proof.
  apply (battery_replaced_before_setup sample_const (sample_host (lit "2023.12.1"))
           call_d1 sample_now hass_not_set_up
           {| device_config_entries := [lit "e0"; lit "e1"] |} (lit "e1") entry_e1).
  - reflexivity.
  - apply elem_of_cons. right. apply elem_of_cons. left. reflexivity.
  - reflexivity.
  - reflexivity.
  - exact I.
  - left. reflexivity.
Defined.

Lemma remove_entry_before_setup_witness :
  async_remove_entry sample_const entry_e1 hass_not_set_up
  = (Raise KeyError, hass_not_set_up).
Proof.
  apply (remove_entry_before_setup sample_const entry_e1 hass_not_set_up).
  - eexists. reflexivity.
  - exact I.
Defined.

Lemma setup_domain_data_witness :
  ∃ h' d,
    async_setup sample_const (sample_host (lit "2023.12.1")) ∅ sample_now hass0
    = (Return true, h')
    ∧ hass_data h' !! lit "battery_notes" = Some d
    ∧ d !! lit "coordinator" = Some OCoordinator.
Proof.
  destruct (setup_domain_data sample_const (sample_host (lit "2023.12.1"))
              ∅ sample_now hass0)
    as (h' & d & Hrun & Hd & _ & Hc & _).
  - reflexivity.
  - eexists. reflexivity.
  - apply (bool_decide_unpack _). vm_compute. exact I.
  - exists h', d. split; [exact Hrun|]. split; [exact Hd|exact Hc].
Defined.

Lemma setup_twice_witness :
  ∃ h1 h2 h2',
    async_setup sample_const (sample_host (lit "2023.12.1")) ∅ sample_now hass0
    = (Return true, h1)
    ∧ async_setup sample_const (sample_host (lit "2023.12.1")) ∅ sample_now h1
      = (Return true, h2)
    ∧ async_setup sample_const (sample_host (lit "2023.12.1")) ∅ sample_now hass0
      = (Return true, h2')
    ∧ hass_data h2 = hass_data h2'.
Proof.
  destruct (setup_twice sample_const (sample_host (lit "2023.12.1"))
              ∅ sample_now ∅ sample_now hass0)
    as (h1 & h2 & h2' & Hr1 & Hr2 & Hr3 & Hd & _).
  - reflexivity.
  - eexists. reflexivity.
  - eexists. reflexivity.
  - exists h1, h2, h2'. repeat split; assumption.
Defined.

Lemma setup_then_use_witness :
  ∃ h1,
    async_setup sample_const (sample_host (lit "2023.12.1")) ∅ sample_now hass_not_set_up
    = (Return true, h1)
    ∧ async_remove_entry sample_const entry_e1 h1
      = (Return tt,
         with_calls h1
           (hass_calls h1 ++
              [ call_async_update_device_config (VStr (lit "d1"))
                  {[ lit "remove" := VBool true ]} ])).
Proof.
  destruct (setup_then_use sample_const (sample_host (lit "2023.12.1"))
              ∅ sample_now hass_not_set_up)
    as (h1 & Hrun & Hremove & _).
  - reflexivity.
  - eexists. reflexivity.
  - discriminate.
  - exists h1. split; [exact Hrun|]. apply Hremove. reflexivity.
Defined.

Lemma fallback_is_schema_defaults_less_user_library_witness :
  fallback_domain_config sample_const
  = delete (lit "user_library") (schema_defaults (CONFIG_SCHEMA sample_const)).
Proof.
  apply (fallback_is_schema_defaults_less_user_library sample_const).
  apply (bool_decide_unpack _). vm_compute. exact I.
Defined.
